(** * REST sensor platform (homeassistant/components/sensor/rest.py)

    A shallow embedding of the REST sensor: the two throttled fetchers
    [RestDataGet] and [RestDataPost], the publishing entity [RestSensor]
    and the platform entry point [setup_platform], followed by the
    properties of the specification that were checked against them.

    Python objects are records, attribute assignment is a record update,
    a method is a computation in a small reader/state/exception/log monad
    [M]: the reader part is what the outside world does during the call
    (clock readings, outcome of the HTTP request), the log part records
    the requests issued and the lines sent to the logger. *)

From Stdlib Require Import ZArith String List Bool Lia.
From stdpp Require Import base gmap strings.
Import ListNotations.

Local Open Scope string_scope.
Local Open Scope list_scope.
Local Open Scope Z_scope.

(** ** Python values *)

(** The values the module manipulates: configuration entries ([None],
    booleans, strings), the cached result [data] (a [dict] until the first
    successful fetch, a [str] afterwards) and the published state. The only
    dictionary the module builds maps the key ['error'] to the string
    ['N/A'], so dictionaries map strings to strings. *)
Inductive PyVal : Type :=
| PyNone
| PyBool (b : bool)
| PyStr (s : string)
| PyDict (d : gmap string string).

(** The exception classes that can reach the module. Those of
    [requests.exceptions] come first: [ConnectTimeout], [SSLError] and
    [ProxyError] derive from [ConnectionError] ([ConnectTimeout] from
    [Timeout] as well), [ReadTimeout] derives from [Timeout] only;
    [MissingSchema], [InvalidSchema] and [InvalidURL] derive from
    [RequestException] and [ValueError] and from none of the others. An
    exception of any other class is an [OtherException]: it carries the name
    of its class and whether that class derives from [ConnectionError]; it
    derives neither from [MissingSchema] nor from [Timeout]. *)
Inductive Exception : Type :=
| ConnectionError
| ConnectTimeout
| SSLError
| ProxyError
| ReadTimeout
| MissingSchema
| InvalidSchema
| InvalidURL
| TypeError
| KeyError
| UnboundLocalError
| OtherException (name : string) (derives_from_ConnectionError : bool).

(** [except requests.exceptions.ConnectionError] *)
Definition isinstance_ConnectionError (e : Exception) : bool :=
  match e with
  | ConnectionError | ConnectTimeout | SSLError | ProxyError => true
  | OtherException _ derived => derived
  | _ => false
  end.

(** [except requests.exceptions.MissingSchema] *)
Definition isinstance_MissingSchema (e : Exception) : bool :=
  match e with
  | MissingSchema => true
  | _ => false
  end.

(** Exceeding [timeout=10] surfaces as one of the two [Timeout] classes. *)
Definition isinstance_Timeout (e : Exception) : bool :=
  match e with
  | ConnectTimeout | ReadTimeout => true
  | _ => false
  end.

Inductive Res (A : Type) : Type :=
| Ok (a : A)
| Raise (e : Exception).
Arguments Ok {A} a.
Arguments Raise {A} e.

(** ** The outside world *)

Inductive Verb : Type := GET | POST.

(** One call of [requests.get] or [requests.post]: [body] is [None] when no
    [data=] argument is passed. *)
Record Request : Type := mkRequest {
  verb : Verb;
  url : PyVal;
  body : option PyVal;
  timeout : Z;
  verify : PyVal
}.

(** What the module reads of a response; [ok] is derived from the status
    code as [requests] does (false exactly for 4xx and 5xx). *)
Record Response : Type := mkResponse {
  status_code : Z;
  text : string
}.

Definition ok (r : Response) : bool :=
  negb ((400 <=? status_code r) && (status_code r <? 600)).

(** What the world does during one call of a method: the clock when the
    call is made, the clock when the wrapped operation has completed, and
    the outcome of an HTTP request issued meanwhile. Times are seconds. *)
Record Call : Type := mkCall {
  t_call : Z;
  t_done : Z;
  http : Request -> Res Response
}.

Inductive Event : Type :=
| EvRequest (r : Request)
| EvLogError (msg : string) (args : list Z).

(** ** The monad of method bodies *)

Definition M (S A : Type) : Type := Call -> S -> Res A * S * list Event.

Definition ret {S A} (a : A) : M S A := fun _ s => (Ok a, s, []).

Definition bind {S A B} (m : M S A) (k : A -> M S B) : M S B :=
  fun c s =>
    match m c s with
    | (Ok a, s1, ev1) =>
        match k a c s1 with
        | (r, s2, ev2) => (r, s2, ev1 ++ ev2)
        end
    | (Raise e, s1, ev1) => (Raise e, s1, ev1)
    end.

Declare Scope py_scope.
Delimit Scope py_scope with py.
Notation "x <- m ;; k" := (bind m (fun x => k))
  (at level 100, m at next level, right associativity) : py_scope.
Notation "m ;; k" := (bind m (fun _ => k))
  (at level 100, right associativity) : py_scope.
Local Open Scope py_scope.

Definition raise {S A} (e : Exception) : M S A := fun _ s => (Raise e, s, []).

Definition lift {S A} (r : Res A) : M S A := fun _ s => (r, s, []).

Definition gets {S A} (f : S -> A) : M S A := fun _ s => (Ok (f s), s, []).

Definition modify {S} (f : S -> S) : M S unit := fun _ s => (Ok tt, f s, []).

Definition ask {S} : M S Call := fun c s => (Ok c, s, []).

Definition emit {S} (e : Event) : M S unit := fun _ s => (Ok tt, s, [e]).

(** Run a method of a sub-object held in an attribute. *)
Definition zoom {S T A} (get : S -> T) (set : T -> S -> S) (m : M T A) : M S A :=
  fun c s =>
    match m c (get s) with
    | (r, t', ev) => (r, set t' s, ev)
    end.

(** [try: body except C1: h1 except C2: h2]: the first clause whose class
    test accepts the exception handles it, from the state reached when it
    was raised; an exception no clause accepts propagates, and so does one
    raised by a handler. *)
Fixpoint find_clause {S A} (cl : list ((Exception -> bool) * M S A)) (e : Exception)
  : option (M S A) :=
  match cl with
  | [] => None
  | (p, h) :: cl' => if p e then Some h else find_clause cl' e
  end.

Definition try_except {S A} (m : M S A) (cl : list ((Exception -> bool) * M S A)) : M S A :=
  fun c s =>
    match m c s with
    | (Ok a, s1, ev1) => (Ok a, s1, ev1)
    | (Raise e, s1, ev1) =>
        match find_clause cl e with
        | Some h =>
            match h c s1 with
            | (r, s2, ev2) => (r, s2, ev1 ++ ev2)
            end
        | None => (Raise e, s1, ev1)
        end
    end.

(** ** Python operators used by the module *)

(** [needle in hay] on strings: substring test. *)
Fixpoint str_contains (needle hay : string) : bool :=
  String.prefix needle hay ||
  match hay with
  | EmptyString => false
  | String _ rest => str_contains needle rest
  end.

(** [key in v]: key membership on a dict, substring test on a str. *)
Definition py_contains (key : string) (v : PyVal) : Res bool :=
  match v with
  | PyDict d => Ok (bool_decide (is_Some (d !! key)))
  | PyStr s => Ok (str_contains key s)
  | PyNone | PyBool _ => Raise TypeError
  end.

(** [v[key]] with a string key. *)
Definition py_getitem (v : PyVal) (key : string) : Res PyVal :=
  match v with
  | PyDict d =>
      match d !! key with
      | Some x => Ok (PyStr x)
      | None => Raise KeyError
      end
  | _ => Raise TypeError
  end.

(** [del v[key]]: the value after the deletion. *)
Definition py_delitem (v : PyVal) (key : string) : Res PyVal :=
  match v with
  | PyDict d =>
      match d !! key with
      | Some _ => Ok (PyDict (delete key d))
      | None => Raise KeyError
      end
  | _ => Raise TypeError
  end.

(** [v[key] = x]: the value after the assignment. *)
Definition py_setitem (v : PyVal) (key x : string) : Res PyVal :=
  match v with
  | PyDict d => Ok (PyDict (<[key := x]> d))
  | _ => Raise TypeError
  end.

(** [requests.get(url, timeout=.., verify=..)] *)
Definition requests_get {S} (u : PyVal) (tmo : Z) (vfy : PyVal) : M S Response :=
  let rq := mkRequest GET u None tmo vfy in
  emit (EvRequest rq) ;;
  c <- ask ;;
  lift (http c rq).

(** [requests.post(url, data=.., timeout=.., verify=..)] *)
Definition requests_post {S} (u : PyVal) (d : PyVal) (tmo : Z) (vfy : PyVal) : M S Response :=
  let rq := mkRequest POST u (Some d) tmo vfy in
  emit (EvRequest rq) ;;
  c <- ask ;;
  lift (http c rq).

(** [_LOGGER.error(msg, *args)] *)
Definition _LOGGER_error {S} (msg : string) (args : list Z) : M S unit :=
  emit (EvLogError msg args).

(** ** Module constants *)

Definition DEFAULT_NAME : string := "REST Sensor".
Definition DEFAULT_METHOD : string := "GET".

(** [timedelta(seconds=60)] *)
Definition MIN_TIME_BETWEEN_UPDATES : Z := 60.

(** ** The throttle *)

(** Modelled from the spec: [homeassistant.util.Throttle] is imported by the
    module but is not among the sources. The specification describes it as a
    minimum-interval gate around a zero-argument operation: the first call
    always executes; a later call executes only if
    [now - last_execution_time >= min_interval]; on execution the time stamp
    is set to the clock read after the wrapped operation has completed; it
    is the time of the last successful invocation, so an operation that
    raises leaves it as it was. A gated call that does not execute changes
    nothing. *)
Definition Throttle {S} (min_time : Z)
    (last_execution_time : S -> option Z)
    (set_last_execution_time : Z -> S -> S)
    (method : M S unit) : M S unit :=
  c <- ask ;;
  last <- gets last_execution_time ;;
  let execute :=
    match last with
    | None => true
    | Some t => min_time <=? t_call c - t
    end in
  if execute then
    method ;;
    modify (set_last_execution_time (t_done c))
  else
    ret tt.

(** ** The fetchers *)

(** [class RestDataGet]. The time stamp of the throttle that decorates
    [update] is kept with the instance it gates. *)
Module RestDataGet.

Record t : Type := mk {
  _resource : PyVal;
  _verify_ssl : PyVal;
  data : PyVal;
  last_execution_time : option Z
}.

Definition set_data (v : PyVal) (self : t) : t :=
  mk (_resource self) (_verify_ssl self) v (last_execution_time self).

Definition set_last_execution_time (z : Z) (self : t) : t :=
  mk (_resource self) (_verify_ssl self) (data self) (Some z).

Definition __init__ (resource verify_ssl : PyVal) : t :=
  mk resource verify_ssl (PyDict ∅) None.

(** The body of [update], under the decorator. *)
Definition update_body : M t unit :=
  try_except
    (resource <- gets _resource ;;
     verify_ssl <- gets _verify_ssl ;;
     response <- requests_get resource 10 verify_ssl ;;
     d <- gets data ;;
     has_error <- lift (py_contains "error" d) ;;
     (if has_error : bool then
        d' <- lift (py_delitem d "error") ;;
        modify (set_data d')
      else ret tt) ;;
     modify (set_data (PyStr (text response))))
    [(isinstance_ConnectionError,
      _LOGGER_error "No route to resource/endpoint." [] ;;
      d <- gets data ;;
      d' <- lift (py_setitem d "error" "N/A") ;;
      modify (set_data d'))].

(** [@Throttle(MIN_TIME_BETWEEN_UPDATES) def update(self)] *)
Definition update : M t unit :=
  Throttle MIN_TIME_BETWEEN_UPDATES last_execution_time
    set_last_execution_time update_body.

End RestDataGet.

(** [class RestDataPost] *)
Module RestDataPost.

Record t : Type := mk {
  _resource : PyVal;
  _payload : PyVal;
  _verify_ssl : PyVal;
  data : PyVal;
  last_execution_time : option Z
}.

Definition set_data (v : PyVal) (self : t) : t :=
  mk (_resource self) (_payload self) (_verify_ssl self) v
     (last_execution_time self).

Definition set_last_execution_time (z : Z) (self : t) : t :=
  mk (_resource self) (_payload self) (_verify_ssl self) (data self) (Some z).

Definition __init__ (resource payload verify_ssl : PyVal) : t :=
  mk resource payload verify_ssl (PyDict ∅) None.

Definition update_body : M t unit :=
  try_except
    (resource <- gets _resource ;;
     payload <- gets _payload ;;
     verify_ssl <- gets _verify_ssl ;;
     response <- requests_post resource payload 10 verify_ssl ;;
     d <- gets data ;;
     has_error <- lift (py_contains "error" d) ;;
     (if has_error : bool then
        d' <- lift (py_delitem d "error") ;;
        modify (set_data d')
      else ret tt) ;;
     modify (set_data (PyStr (text response))))
    [(isinstance_ConnectionError,
      _LOGGER_error "No route to resource/endpoint." [] ;;
      d <- gets data ;;
      d' <- lift (py_setitem d "error" "N/A") ;;
      modify (set_data d'))].

Definition update : M t unit :=
  Throttle MIN_TIME_BETWEEN_UPDATES last_execution_time
    set_last_execution_time update_body.

End RestDataPost.

(** The [rest] argument of [RestSensor]: the sensor only uses its [update]
    method and its [data] attribute, which both fetcher classes provide. *)
Inductive Rest : Type :=
| RestGet (r : RestDataGet.t)
| RestPost (r : RestDataPost.t).

Definition Rest_data (r : Rest) : PyVal :=
  match r with
  | RestGet g => RestDataGet.data g
  | RestPost p => RestDataPost.data p
  end.

Definition Rest_last_execution_time (r : Rest) : option Z :=
  match r with
  | RestGet g => RestDataGet.last_execution_time g
  | RestPost p => RestDataPost.last_execution_time p
  end.

Definition Rest_update : M Rest unit :=
  fun c r =>
    match r with
    | RestGet g =>
        match RestDataGet.update c g with
        | (res, g', ev) => (res, RestGet g', ev)
        end
    | RestPost p =>
        match RestDataPost.update c p with
        | (res, p', ev) => (res, RestPost p', ev)
        end
    end.

(** ** The host *)

(** The host object [hass] and [template.render_with_possible_json_value],
    which the module imports: the rendering is a function of the host
    handle, the template, the value and the default, and it yields a string
    or raises. *)
Class Host : Type := {
  Hass : Type;
  render_with_possible_json_value : Hass -> PyVal -> PyVal -> string -> Res string
}.

(** ** The sensor *)

Module RestSensor.
Section WithHost.
Context `{Host}.

Record t : Type := mk {
  _hass : Hass;
  rest : Rest;
  _name : PyVal;
  _state : PyVal;
  _unit_of_measurement : PyVal;
  _value_template : PyVal
}.

Definition set_rest (r : Rest) (self : t) : t :=
  mk (_hass self) r (_name self) (_state self) (_unit_of_measurement self)
     (_value_template self).

Definition set_state (v : PyVal) (self : t) : t :=
  mk (_hass self) (rest self) (_name self) v (_unit_of_measurement self)
     (_value_template self).

(** [_state] is held by value. In Python [self._state = value] can bind the
    state to the very dictionary the fetcher holds (no ['error'] key, no
    template); the only in-place change such a dictionary then undergoes is
    the handler's [self.data['error'] = 'N/A'], after which the same call of
    [update] rebinds the state to ['N/A'], so the sharing is never seen. *)

(** The three properties. *)
Definition name (self : t) : PyVal := _name self.
Definition unit_of_measurement (self : t) : PyVal := _unit_of_measurement self.
Definition state (self : t) : PyVal := _state self.

Definition update : M t unit :=
  zoom rest set_rest Rest_update ;;
  value <- gets (fun self => Rest_data (rest self)) ;;
  has_error <- lift (py_contains "error" value) ;;
  if has_error : bool then
    e <- lift (py_getitem value "error") ;;
    modify (set_state e)
  else
    value_template <- gets _value_template ;;
    value' <- match value_template with
              | PyNone => ret value
              | _ =>
                  hass <- gets _hass ;;
                  r <- lift (render_with_possible_json_value
                               hass value_template value "N/A") ;;
                  ret (PyStr r)
              end ;;
    modify (set_state value').

(** The constructor: the object exists for the caller only if [update]
    returns. *)
Definition __init__ (hass : Hass) (rest0 : Rest)
    (name0 unit_of_measurement0 value_template : PyVal) (c : Call)
  : Res t * list Event :=
  let self := mk hass rest0 name0 (PyStr "n/a") unit_of_measurement0 value_template in
  match update c self with
  | (Ok _, self', ev) => (Ok self', ev)
  | (Raise e, _, ev) => (Raise e, ev)
  end.

End WithHost.
End RestSensor.

(** ** Platform setup *)

(** Modelled from the spec: [CONF_VALUE_TEMPLATE] is imported from
    [homeassistant.const], which is not among the sources; the
    specification names the configuration key [value_template]. *)
Definition CONF_VALUE_TEMPLATE : string := "value_template".

(** [config.get(key, default)] *)
Definition config_get (config : gmap string PyVal) (key : string) (default : PyVal) : PyVal :=
  match config !! key with
  | Some v => v
  | None => default
  end.

(** [v == 'literal'] *)
Definition py_eq_str (v : PyVal) (s : string) : bool :=
  match v with
  | PyStr s' => String.eqb s' s
  | _ => false
  end.

(** Reading a local variable that an [if]/[elif] without [else] may have
    left unassigned. *)
Definition local_var {S A} (x : option A) : M S A :=
  match x with
  | Some a => ret a
  | None => raise UnboundLocalError
  end.

Definition dquote : string := String (Ascii.ascii_of_nat 34) EmptyString.

(** ['Response status is "%s"'] *)
Definition status_message : string :=
  String.append "Response status is "
    (String.append dquote (String.append "%s" dquote)).

Definition schema_message : string :=
  String.append "Missing resource or schema in configuration. "
                "Add http:// to your URL.".

Definition route_message : string :=
  String.append "No route to resource/endpoint. "
                "Please check the URL in the configuration file.".

(** What the call of [setup_platform] evaluates to: [return False], or the
    end of the function body. *)
Inductive SetupReturn : Type := ReturnFalse | ReturnNone.

Section WithHost.
Context `{Host}.

(** Evaluate a constructor call inside a function body. *)
Definition construct {S A} (r : Res A * list Event) : M S A :=
  fun _ s => (fst r, s, snd r).

(** The host's [add_devices] callback: the state of [setup_platform] is the
    list of entities registered with the host. *)
Definition add_devices (new : list RestSensor.t) : M (list RestSensor.t) unit :=
  modify (fun devices => devices ++ new).

(** [setup_platform(hass, config, add_devices)]. The reader part is the world
    during the preflight request; [first_poll] is the world during the
    sensor's constructor. *)
Definition setup_platform (hass : Hass) (config : gmap string PyVal)
    (first_poll : Call) : M (list RestSensor.t) SetupReturn :=
  let use_get := false in
  let use_post := false in
  let resource := config_get config "resource" PyNone in
  let method := config_get config "method" (PyStr DEFAULT_METHOD) in
  let payload := config_get config "payload" PyNone in
  let verify_ssl := config_get config "verify_ssl" (PyBool true) in
  let '(use_get, use_post) :=
    if py_eq_str method "GET" then (true, use_post)
    else if py_eq_str method "POST" then (use_get, true)
    else (use_get, use_post) in
  returned <-
    try_except
      (response <-
         (if use_get then
            r <- requests_get resource 10 verify_ssl ;; ret (Some r)
          else if use_post then
            r <- requests_post resource payload 10 verify_ssl ;; ret (Some r)
          else ret None) ;;
       response <- local_var response ;;
       if negb (ok response) then
         _LOGGER_error status_message [status_code response] ;;
         ret (Some ReturnFalse)
       else ret None)
      [(isinstance_MissingSchema,
        _LOGGER_error schema_message [] ;;
        ret (Some ReturnFalse));
       (isinstance_ConnectionError,
        _LOGGER_error route_message [] ;;
        ret (Some ReturnFalse))] ;;
  match returned with
  | Some v => ret v
  | None =>
      rest <-
        (if use_get then
           ret (Some (RestGet (RestDataGet.__init__ resource verify_ssl)))
         else if use_post then
           ret (Some (RestPost (RestDataPost.__init__ resource payload verify_ssl)))
         else ret None) ;;
      rest <- local_var rest ;;
      sensor <- construct
        (RestSensor.__init__ hass rest
           (config_get config "name" (PyStr DEFAULT_NAME))
           (config_get config "unit_of_measurement" PyNone)
           (config_get config CONF_VALUE_TEMPLATE PyNone)
           first_poll) ;;
      add_devices [sensor] ;;
      ret ReturnNone
  end.

End WithHost.

(** ** Runs of a polled object *)

(** The host polls by calling the same method again and again; an exception
    that escapes one call ends that call only. A run records, for each call,
    the world it met, the object before and after, whether the call
    returned, and what it emitted. *)
Record Step (S : Type) : Type := mkStep {
  step_call : Call;
  step_before : S;
  step_result : Res unit;
  step_events : list Event;
  step_after : S
}.
Arguments mkStep {S} _ _ _ _ _.
Arguments step_call {S} _.
Arguments step_before {S} _.
Arguments step_result {S} _.
Arguments step_events {S} _.
Arguments step_after {S} _.

Fixpoint run {S} (method : M S unit) (calls : list Call) (s : S) : list (Step S) :=
  match calls with
  | [] => []
  | c :: calls' =>
      match method c s with
      | (r, s1, ev) => mkStep c s r ev s1 :: run method calls' s1
      end
  end.

(** The clock does not go back while a call is being served. *)
Definition clock_advances (c : Call) : Prop := t_call c <= t_done c.

Definition is_request (e : Event) : bool :=
  match e with
  | EvRequest _ => true
  | EvLogError _ _ => false
  end.

Definition requests_of (ev : list Event) : list Event := List.filter is_request ev.

(** A step in which the gated operation ran to completion: the request was
    issued and the call returned. *)
Definition fetched {S} (st : Step S) : bool :=
  match step_result st, requests_of (step_events st) with
  | Ok _, _ :: _ => true
  | _, _ => false
  end.

(** ** Vocabulary of the statements *)

(** The request a fetcher issues when its [update] executes, read off the
    call of [requests.get] and [requests.post] in the two bodies. *)
Definition Rest_request (r : Rest) : Request :=
  match r with
  | RestGet g =>
      mkRequest GET (RestDataGet._resource g) None 10 (RestDataGet._verify_ssl g)
  | RestPost p =>
      mkRequest POST (RestDataPost._resource p) (Some (RestDataPost._payload p)) 10
                (RestDataPost._verify_ssl p)
  end.

Definition Rest_set_data (v : PyVal) (r : Rest) : Rest :=
  match r with
  | RestGet g => RestGet (RestDataGet.set_data v g)
  | RestPost p => RestPost (RestDataPost.set_data v p)
  end.

Definition Rest_set_last_execution_time (z : Z) (r : Rest) : Rest :=
  match r with
  | RestGet g => RestGet (RestDataGet.set_last_execution_time z g)
  | RestPost p => RestPost (RestDataPost.set_last_execution_time z p)
  end.

(** The call passes the throttle gate of the fetcher. *)
Definition gate_open (c : Call) (r : Rest) : bool :=
  match Rest_last_execution_time r with
  | None => true
  | Some t => MIN_TIME_BETWEEN_UPDATES <=? t_call c - t
  end.

(** A step that did nothing: it returned, emitted nothing and left the
    object as it was. *)
Definition noop {S} (st : Step S) : Prop :=
  step_result st = Ok tt /\ step_events st = [] /\ step_after st = step_before st.

(** The preflight request of [setup_platform], read off its two calls of
    [requests]: none is issued when the method is neither of the two. *)
Definition preflight_request (config : gmap string PyVal) : option Request :=
  let resource := config_get config "resource" PyNone in
  let method := config_get config "method" (PyStr DEFAULT_METHOD) in
  let payload := config_get config "payload" PyNone in
  let verify_ssl := config_get config "verify_ssl" (PyBool true) in
  if py_eq_str method "GET" then
    Some (mkRequest GET resource None 10 verify_ssl)
  else if py_eq_str method "POST" then
    Some (mkRequest POST resource (Some payload) 10 verify_ssl)
  else None.

(** The logger line of the steady-state handler. *)
Definition no_route : Event := EvLogError "No route to resource/endpoint." [].

(** A world in which every request meets the same outcome. *)
Definition world (t0 t1 : Z) (outcome : Res Response) : Call :=
  mkCall t0 t1 (fun _ => outcome).

Definition responds (t0 t1 : Z) (body_text : string) : Call :=
  world t0 t1 (Ok (mkResponse 200 body_text)).

Definition fails (t0 t1 : Z) (e : Exception) : Call :=
  world t0 t1 (Raise e).

(** ** Sample objects *)

(** A host whose renderer yields the text it is given, and the default for
    a value that is not text. *)
Definition echo_host : Host := {|
  Hass := unit;
  render_with_possible_json_value := fun _ _ value default =>
    match value with
    | PyStr s => Ok s
    | _ => Ok default
    end
|}.

Definition sample_get : RestDataGet.t :=
  RestDataGet.__init__ (PyStr "http://localhost/api") (PyBool true).

Definition sample_post : RestDataPost.t :=
  RestDataPost.__init__ (PyStr "http://localhost/api") (PyStr "foo=bar")
    (PyBool true).

Definition sample_get_request : Request :=
  mkRequest GET (PyStr "http://localhost/api") None 10 (PyBool true).

Definition sample_post_request : Request :=
  mkRequest POST (PyStr "http://localhost/api") (Some (PyStr "foo=bar")) 10
    (PyBool true).

(** A sensor without template around [sample_get], as its constructor
    leaves it before the first poll, and after a poll that fetched [s]. *)
Definition sample_sensor (cache : RestDataGet.t) (st : PyVal)
  : @RestSensor.t echo_host :=
  @RestSensor.mk echo_host tt (RestGet cache) (PyStr DEFAULT_NAME) st PyNone PyNone.

Definition sample_get_holding (s : string) (t : Z) : RestDataGet.t :=
  RestDataGet.mk (PyStr "http://localhost/api") (PyBool true) (PyStr s) (Some t).


(** Three polls: at 0 s, 30 s later, and a minute after the first one
    completed. *)
Definition sample_calls : list Call :=
  [responds 0 1 "a"; responds 30 31 "b"; responds 61 62 "c"].

(** ** Reachable shapes *)

(** The shapes the cached value and the throttle's time stamp take together
    from the construction of a fetcher on: the empty dictionary with no time
    stamp, or, once an execution has completed, the error marker or a
    fetched body. *)
Definition cache_shape (r : Rest) : Prop :=
  match Rest_data r with
  | PyDict d =>
      (d = ∅ /\ Rest_last_execution_time r = None) \/
      (d = {["error" := "N/A"]} /\ Rest_last_execution_time r <> None)
  | PyStr _ => Rest_last_execution_time r <> None
  | _ => False
  end.

(** The published state is a text. *)
Definition is_text (v : PyVal) : Prop := exists s, v = PyStr s.

(** A sensor whose cache has a reachable shape and whose state is a text,
    as the first lines of the constructor leave it and as every call of
    [update] keeps it. *)
Definition sensor_shape `{Host} (self : RestSensor.t) : Prop :=
  cache_shape (RestSensor.rest self) /\ is_text (RestSensor._state self).

(** * Properties *)

(** ** One call of a fetcher's [update] *)

Ltac unfold_py :=
  cbv [RestDataGet.update RestDataPost.update RestDataGet.update_body
       RestDataPost.update_body Throttle try_except find_clause bind ret raise
       lift gets modify ask emit zoom requests_get requests_post
       _LOGGER_error construct local_var
       RestDataGet.last_execution_time RestDataPost.last_execution_time
       RestDataGet._resource RestDataPost._resource RestDataGet._verify_ssl
       RestDataPost._verify_ssl RestDataPost._payload RestDataGet.data
       RestDataPost.data RestDataGet.set_data RestDataPost.set_data
       RestDataGet.set_last_execution_time
       RestDataPost.set_last_execution_time
       py_contains py_getitem py_delitem py_setitem app].

Ltac fetch_cases :=
  match goal with
  | |- context [http ?c ?rq] => destruct (http c rq) as [resp|e]
  end;
  [ match goal with
    | |- context [match ?d with PyNone => _ | _ => _ end] =>
        destruct d as [| b | s | m]
    end; try reflexivity;
    [ match goal with
      | |- context [str_contains ?k ?s] => destruct (str_contains k s)
      end; reflexivity
    | match goal with
      | |- context [?m !! ?k] =>
          let E := fresh "E" in
          destruct (m !! k) eqn:E;
          [ rewrite bool_decide_eq_true_2 by eauto
          | rewrite bool_decide_eq_false_2 by (intros [? ?]; congruence) ];
          reflexivity
      end ]
  | match goal with
    | |- context [isinstance_ConnectionError ?e] =>
        destruct (isinstance_ConnectionError e)
    end; [|reflexivity];
    match goal with
    | |- context [match ?d with PyNone => _ | _ => _ end] => destruct d
    end; reflexivity ].

(** Every outcome of one call of [update], by the gate, the outcome of the
    request and the shape of the cached value. *)
Lemma Rest_update_cases (c : Call) (r : Rest) :
  Rest_update c r =
  if gate_open c r then
    match http c (Rest_request r) with
    | Ok resp =>
        let stored :=
          (Ok tt,
           Rest_set_last_execution_time (t_done c)
             (Rest_set_data (PyStr (text resp)) r),
           [EvRequest (Rest_request r)]) in
        match Rest_data r with
        | PyDict _ => stored
        | PyStr s =>
            if str_contains "error" s
            then (Raise TypeError, r, [EvRequest (Rest_request r)])
            else stored
        | _ => (Raise TypeError, r, [EvRequest (Rest_request r)])
        end
    | Raise e =>
        if isinstance_ConnectionError e then
          match Rest_data r with
          | PyDict d =>
              (Ok tt,
               Rest_set_last_execution_time (t_done c)
                 (Rest_set_data (PyDict (<["error" := "N/A"]> d)) r),
               [EvRequest (Rest_request r); no_route])
          | _ => (Raise TypeError, r, [EvRequest (Rest_request r); no_route])
          end
        else (Raise e, r, [EvRequest (Rest_request r)])
    end
  else (Ok tt, r, []).
Proof.
  destruct r as [[res vfy d last] | [res pay vfy d last]];
    unfold Rest_update, gate_open, Rest_last_execution_time, Rest_request,
      Rest_data, Rest_set_data, Rest_set_last_execution_time, no_route;
    unfold_py;
    (destruct last as [t|];
     [destruct (MIN_TIME_BETWEEN_UPDATES <=? t_call c - t); [|reflexivity]|]);
    fetch_cases.
Qed.

(** ** One call of the sensor's [update] *)

Section SensorCases.
Context `{Host}.

(** The publishing half of [RestSensor.update], once the fetcher's [update]
    has returned: what becomes of the state for each cached value. *)
Lemma RestSensor_update_cases (c : Call) (self : RestSensor.t) :
  RestSensor.update c self =
  match Rest_update c (RestSensor.rest self) with
  | (Raise e, r', ev) => (Raise e, RestSensor.set_rest r' self, ev)
  | (Ok _, r', ev) =>
      let self1 := RestSensor.set_rest r' self in
      let publish (value : PyVal) :=
        match RestSensor._value_template self with
        | PyNone => (Ok tt, RestSensor.set_state value self1, ev)
        | tpl =>
            match render_with_possible_json_value
                    (RestSensor._hass self) tpl value "N/A" with
            | Ok rendered => (Ok tt, RestSensor.set_state (PyStr rendered) self1, ev)
            | Raise e => (Raise e, self1, ev)
            end
        end in
      match Rest_data r' with
      | PyDict d =>
          match d !! "error" with
          | Some x => (Ok tt, RestSensor.set_state (PyStr x) self1, ev)
          | None => publish (PyDict d)
          end
      | PyStr s =>
          if str_contains "error" s then (Raise TypeError, self1, ev)
          else publish (PyStr s)
      | _ => (Raise TypeError, self1, ev)
      end
  end.
Proof.
  destruct self as [hass r nm st unit tpl].
  unfold RestSensor.update.
  cbv [bind zoom gets lift modify ret RestSensor.rest RestSensor.set_rest
       RestSensor.set_state RestSensor._value_template RestSensor._hass
       RestSensor._name RestSensor._state RestSensor._unit_of_measurement
       py_contains py_getitem].
  destruct (Rest_update c r) as [[[u|e] r'] ev]; [|reflexivity].
  destruct (Rest_data r') as [| b | s | d].
  - rewrite app_nil_r. reflexivity.
  - rewrite app_nil_r. reflexivity.
  - destruct (str_contains "error" s).
    + rewrite app_nil_r. reflexivity.
    + destruct tpl; try (rewrite !app_nil_r; reflexivity);
        destruct (render_with_possible_json_value _ _ _ _);
        rewrite !app_nil_r; reflexivity.
  - destruct (d !! "error") eqn:E.
    + rewrite bool_decide_eq_true_2 by eauto. rewrite !app_nil_r. reflexivity.
    + rewrite bool_decide_eq_false_2 by (intros [? ?]; congruence).
      destruct tpl; try (rewrite !app_nil_r; reflexivity);
        destruct (render_with_possible_json_value _ _ _ _);
        rewrite !app_nil_r; reflexivity.
Qed.

End SensorCases.

(** ** Consequences for a single call *)

Lemma gate_open_fresh (c : Call) (r : Rest) :
  Rest_last_execution_time r = None -> gate_open c r = true.
Proof. unfold gate_open. intros ->. reflexivity. Qed.

Lemma gate_closed_within (c : Call) (r : Rest) (t : Z) :
  Rest_last_execution_time r = Some t ->
  t_call c - t < MIN_TIME_BETWEEN_UPDATES ->
  gate_open c r = false.
Proof.
  unfold gate_open. intros -> Hlt. apply Z.leb_gt. exact Hlt.
Qed.

(** A gated call that does not execute changes nothing. *)
Lemma Rest_update_throttled (c : Call) (r : Rest) :
  gate_open c r = false -> Rest_update c r = (Ok tt, r, []).
Proof. intros Hg. rewrite Rest_update_cases, Hg. reflexivity. Qed.

(** A successful response over a dictionary cache stores the body. *)
Lemma Rest_update_stores_body (c : Call) (r : Rest) (resp : Response)
    (d : gmap string string) :
  gate_open c r = true ->
  http c (Rest_request r) = Ok resp ->
  Rest_data r = PyDict d ->
  Rest_update c r =
    (Ok tt,
     Rest_set_last_execution_time (t_done c) (Rest_set_data (PyStr (text resp)) r),
     [EvRequest (Rest_request r)]).
Proof.
  intros Hg Hh Hd. rewrite Rest_update_cases, Hg, Hh, Hd. reflexivity.
Qed.

(** A connection failure over a dictionary cache is logged and recorded
    under the key ['error']. *)
Lemma Rest_update_connection_error_dict (c : Call) (r : Rest) (e : Exception)
    (d : gmap string string) :
  gate_open c r = true ->
  http c (Rest_request r) = Raise e ->
  isinstance_ConnectionError e = true ->
  Rest_data r = PyDict d ->
  Rest_update c r =
    (Ok tt,
     Rest_set_last_execution_time (t_done c)
       (Rest_set_data (PyDict (<["error" := "N/A"]> d)) r),
     [EvRequest (Rest_request r); no_route]).
Proof.
  intros Hg Hh He Hd. rewrite Rest_update_cases, Hg, Hh, He, Hd. reflexivity.
Qed.

(** A connection failure over a string cache: the handler's item
    assignment raises. *)
Lemma Rest_update_connection_error_str (c : Call) (r : Rest) (e : Exception)
    (s : string) :
  gate_open c r = true ->
  http c (Rest_request r) = Raise e ->
  isinstance_ConnectionError e = true ->
  Rest_data r = PyStr s ->
  Rest_update c r = (Raise TypeError, r, [EvRequest (Rest_request r); no_route]).
Proof.
  intros Hg Hh He Hd. rewrite Rest_update_cases, Hg, Hh, He, Hd. reflexivity.
Qed.

(** An exception outside the [ConnectionError] family is not handled. *)
Lemma Rest_update_uncaught (c : Call) (r : Rest) (e : Exception) :
  gate_open c r = true ->
  http c (Rest_request r) = Raise e ->
  isinstance_ConnectionError e = false ->
  Rest_update c r = (Raise e, r, [EvRequest (Rest_request r)]).
Proof.
  intros Hg Hh He. rewrite Rest_update_cases, Hg, Hh, He. reflexivity.
Qed.

(** The three ways a call can end, with what each leaves behind. *)
Lemma Rest_update_outcome (c : Call) (r : Rest) :
  (gate_open c r = false /\ Rest_update c r = (Ok tt, r, [])) \/
  (gate_open c r = true /\
   exists r' ev,
     Rest_update c r = (Ok tt, r', ev) /\
     Rest_last_execution_time r' = Some (t_done c) /\
     Rest_request r' = Rest_request r /\
     requests_of ev = [EvRequest (Rest_request r)]) \/
  (gate_open c r = true /\
   exists e ev,
     Rest_update c r = (Raise e, r, ev) /\
     requests_of ev = [EvRequest (Rest_request r)]).
Proof.
  rewrite Rest_update_cases.
  destruct (gate_open c r); [right | left; split; reflexivity].
  assert (Hstamp : forall v,
    Rest_last_execution_time
      (Rest_set_last_execution_time (t_done c) (Rest_set_data v r))
      = Some (t_done c) /\
    Rest_request (Rest_set_last_execution_time (t_done c) (Rest_set_data v r))
      = Rest_request r).
  { intros v. destruct r as [g | p]; split; reflexivity. }
  destruct (http c (Rest_request r)) as [resp | e].
  - destruct (Rest_data r) as [| b | s | d];
      try (right; split; [reflexivity|]; eexists _, _; split; reflexivity).
    + destruct (str_contains "error" s).
      * right; split; [reflexivity|]; eexists _, _; split; reflexivity.
      * left; split; [reflexivity|]. eexists _, _. split; [reflexivity|].
        destruct (Hstamp (PyStr (text resp))) as [-> ->]. repeat split.
    + left; split; [reflexivity|]. eexists _, _. split; [reflexivity|].
      destruct (Hstamp (PyStr (text resp))) as [-> ->]. repeat split.
  - destruct (isinstance_ConnectionError e).
    + destruct (Rest_data r) as [| b | s | d];
        try (right; split; [reflexivity|]; eexists _, _; split; reflexivity).
      left; split; [reflexivity|]. eexists _, _. split; [reflexivity|].
      destruct (Hstamp (PyDict (<["error" := "N/A"]> d))) as [-> ->].
      repeat split.
    + right; split; [reflexivity|]; eexists _, _; split; reflexivity.
Qed.

(** ** Steady-state failures *)

(** C5. When the cached value is a string that contains the substring
    ['error'], a call of the fetcher's [update] that passes the throttle
    gate raises [TypeError] whether the request succeeds or fails with a
    connection error: the success branch runs [del] on the string, the
    handler of the failure branch runs an item assignment on it. This holds
    for both fetcher classes; the cache and the time stamp are left as they
    were. *)
Theorem update_on_string_cache_with_error_raises
    (c : Call) (r : Rest) (s : string) :
  Rest_data r = PyStr s ->
  str_contains "error" s = true ->
  gate_open c r = true ->
  py_contains "error" (PyStr s) = Ok true /\
  py_delitem (PyStr s) "error" = Raise TypeError /\
  py_setitem (PyStr s) "error" "N/A" = Raise TypeError /\
  (forall resp,
     http c (Rest_request r) = Ok resp ->
     Rest_update c r = (Raise TypeError, r, [EvRequest (Rest_request r)])) /\
  (forall e,
     http c (Rest_request r) = Raise e ->
     isinstance_ConnectionError e = true ->
     Rest_update c r =
       (Raise TypeError, r, [EvRequest (Rest_request r); no_route])).
Proof.
  intros Hd Hs Hg. repeat split.
  - cbn. rewrite Hs. reflexivity.
  - intros resp Hh. rewrite Rest_update_cases, Hg, Hh, Hd. cbn. rewrite Hs.
    reflexivity.
  - intros e Hh He. eapply Rest_update_connection_error_str; eauto.
Qed.

Lemma update_on_string_cache_with_error_raises_witness :
  str_contains "error" "error: none" = true /\
  Rest_update (responds 100 101 "7")
      (RestGet (sample_get_holding "error: none" 1))
    = (Raise TypeError, RestGet (sample_get_holding "error: none" 1),
       [EvRequest sample_get_request]) /\
  Rest_update (fails 100 101 ConnectionError)
      (RestPost (RestDataPost.mk (PyStr "u") (PyStr "p") PyNone
                   (PyStr "no error") None))
    = (Raise TypeError,
       RestPost (RestDataPost.mk (PyStr "u") (PyStr "p") PyNone
                   (PyStr "no error") None),
       [EvRequest (mkRequest POST (PyStr "u") (Some (PyStr "p")) 10 PyNone);
        no_route]).
Proof.
  split; [reflexivity|]. split.
  - exact (proj1 (proj2 (proj2 (proj2
             (update_on_string_cache_with_error_raises
                (responds 100 101 "7")
                (RestGet (sample_get_holding "error: none" 1))
                "error: none" eq_refl eq_refl eq_refl))))
             (mkResponse 200 "7") eq_refl).
  - exact (proj2 (proj2 (proj2 (proj2
             (update_on_string_cache_with_error_raises
                (fails 100 101 ConnectionError)
                (RestPost (RestDataPost.mk (PyStr "u") (PyStr "p") PyNone
                             (PyStr "no error") None))
                "no error" eq_refl eq_refl eq_refl))))
             ConnectionError eq_refl eq_refl).
Defined.

(** C4, as the code has it. A poll that passes the gate and whose request
    exceeds the timeout is handled according to the class of the exception.
    A [ConnectTimeout] is a [ConnectionError]: [update] does exactly what it
    does for a connection failure, and over a dictionary cache that is to
    log the failure, record the sentinel and return. A [ReadTimeout] is not
    a [ConnectionError]: it leaves [update], the cached value is unchanged
    and nothing is logged. *)
Theorem timeout_handled_by_exception_class
    (c : Call) (r : Rest) (e : Exception) :
  gate_open c r = true ->
  http c (Rest_request r) = Raise e ->
  isinstance_Timeout e = true ->
  (e = ConnectTimeout /\
   Rest_update c r
     = Rest_update (fails (t_call c) (t_done c) ConnectionError) r /\
   forall d,
     Rest_data r = PyDict d ->
     Rest_update c r =
       (Ok tt,
        Rest_set_last_execution_time (t_done c)
          (Rest_set_data (PyDict (<["error" := "N/A"]> d)) r),
        [EvRequest (Rest_request r); no_route])) \/
  (e = ReadTimeout /\
   Rest_update c r = (Raise ReadTimeout, r, [EvRequest (Rest_request r)])).
Proof.
  intros Hg Hh Ht.
  destruct e; try discriminate Ht; [left | right]; split; try reflexivity.
  - split.
    + rewrite (Rest_update_cases c r), Hg, Hh.
      rewrite (Rest_update_cases (fails _ _ _) r).
      unfold gate_open in *. cbn [t_call fails world]. rewrite Hg.
      reflexivity.
    + intros d Hd. eapply Rest_update_connection_error_dict; eauto.
  - apply Rest_update_uncaught; auto.
Qed.

Lemma timeout_handled_by_exception_class_witness :
  Rest_update (fails 100 110 ConnectTimeout) (RestGet sample_get)
    = Rest_update (fails 100 110 ConnectionError) (RestGet sample_get) /\
  Rest_update (fails 100 110 ReadTimeout) (RestPost sample_post)
    = (Raise ReadTimeout, RestPost sample_post, [EvRequest sample_post_request]).
Proof.
  split.
  - destruct (timeout_handled_by_exception_class
                (fails 100 110 ConnectTimeout) (RestGet sample_get)
                ConnectTimeout eq_refl eq_refl eq_refl) as [(_ & Heq & _) | (Hne & _)].
    + exact Heq.
    + discriminate Hne.
  - destruct (timeout_handled_by_exception_class
                (fails 100 110 ReadTimeout) (RestPost sample_post)
                ReadTimeout eq_refl eq_refl eq_refl) as [(Hne & _) | (_ & Heq)].
    + discriminate Hne.
    + exact Heq.
Defined.

(** C4 as stated fails: a request that runs into the read timeout raises
    [ReadTimeout], which leaves [update]; the cache keeps its value and
    nothing is logged, whereas the same poll meeting a connection failure is
    logged and records the sentinel. *)
Lemma read_timeout_escapes_update :
  isinstance_Timeout ReadTimeout = true /\
  RestDataGet.update (fails 100 110 ReadTimeout) sample_get
    = (Raise ReadTimeout, sample_get, [EvRequest sample_get_request]) /\
  RestDataGet.update (fails 100 110 ConnectionError) sample_get
    = (Ok tt,
       RestDataGet.mk (PyStr "http://localhost/api") (PyBool true)
         (PyDict {["error" := "N/A"]}) (Some 110),
       [EvRequest sample_get_request; no_route]).
Proof. repeat split. Qed.

(** C1, at an input where the code departs from it. A sensor is built while
    the endpoint answers ["42.5"]; a later poll meets a connection failure.
    The handler logs the failure and then assigns to an item of the cached
    string: [TypeError] leaves [RestDataGet.update] and [RestSensor.update],
    the cache still holds ["42.5"], and the published state is still
    ["42.5"], not the sentinel. *)
Theorem connection_error_after_fetch_raises :
  @RestSensor.__init__ echo_host tt (RestGet sample_get) (PyStr DEFAULT_NAME)
      PyNone PyNone (responds 0 1 "42.5")
    = (Ok (sample_sensor (sample_get_holding "42.5" 1) (PyStr "42.5")),
       [EvRequest sample_get_request]) /\
  RestDataGet.update (fails 100 101 ConnectionError) (sample_get_holding "42.5" 1)
    = (Raise TypeError, sample_get_holding "42.5" 1,
       [EvRequest sample_get_request; no_route]) /\
  RestSensor.update (fails 100 101 ConnectionError)
      (sample_sensor (sample_get_holding "42.5" 1) (PyStr "42.5"))
    = (Raise TypeError,
       sample_sensor (sample_get_holding "42.5" 1) (PyStr "42.5"),
       [EvRequest sample_get_request; no_route]).
Proof. repeat split. Qed.

(** The part of C1 the code does deliver: over a dictionary cache (no body
    fetched yet) a connection failure is logged, recorded, and published as
    ['N/A'] without an exception. *)
Lemma connection_error_on_dict_publishes_sentinel `{Host}
    (c : Call) (self : RestSensor.t) (e : Exception) (d : gmap string string) :
  gate_open c (RestSensor.rest self) = true ->
  http c (Rest_request (RestSensor.rest self)) = Raise e ->
  isinstance_ConnectionError e = true ->
  Rest_data (RestSensor.rest self) = PyDict d ->
  exists self',
    RestSensor.update c self
      = (Ok tt, self',
         [EvRequest (Rest_request (RestSensor.rest self)); no_route]) /\
    RestSensor.state self' = PyStr "N/A" /\
    Rest_data (RestSensor.rest self') = PyDict (<["error" := "N/A"]> d).
Proof.
  intros Hg Hh He Hd.
  rewrite RestSensor_update_cases.
  rewrite (Rest_update_connection_error_dict c _ e d Hg Hh He Hd).
  assert (Hdata : Rest_data
            (Rest_set_last_execution_time (t_done c)
               (Rest_set_data (PyDict (<["error" := "N/A"]> d))
                  (RestSensor.rest self)))
          = PyDict (<["error" := "N/A"]> d)).
  { destruct (RestSensor.rest self); reflexivity. }
  cbv zeta. rewrite Hdata, lookup_insert_eq.
  eexists. split; [reflexivity|]. split; [reflexivity|].
  destruct self; exact Hdata.
Qed.

(** ** Publishing a fetched body *)

(** C3, at an input where the code departs from it. The endpoint answers
    ["error: none"] and no template is configured. The fetcher stores the
    body; the sensor's test ['error' in value] is then a substring test that
    succeeds, and [value['error']] on a string raises [TypeError]: the body
    is not published, the state keeps its previous value. *)
Theorem body_containing_error_is_not_published :
  str_contains "error" "error: none" = true /\
  RestSensor.update (responds 0 1 "error: none")
      (sample_sensor sample_get (PyStr "n/a"))
    = (Raise TypeError,
       sample_sensor (sample_get_holding "error: none" 1) (PyStr "n/a"),
       [EvRequest sample_get_request]).
Proof. repeat split. Qed.

(** The part of C3 the code does deliver: without a template, a body that
    does not contain ['error'] is published as it was received, provided
    the previous cached value is not itself a string containing ['error']. *)
Lemma body_without_error_is_published `{Host}
    (c : Call) (self : RestSensor.t) (resp : Response) :
  gate_open c (RestSensor.rest self) = true ->
  http c (Rest_request (RestSensor.rest self)) = Ok resp ->
  RestSensor._value_template self = PyNone ->
  str_contains "error" (text resp) = false ->
  match Rest_data (RestSensor.rest self) with
  | PyDict _ => True
  | PyStr s => str_contains "error" s = false
  | _ => False
  end ->
  exists self',
    RestSensor.update c self
      = (Ok tt, self', [EvRequest (Rest_request (RestSensor.rest self))]) /\
    RestSensor.state self' = PyStr (text resp) /\
    Rest_data (RestSensor.rest self') = PyStr (text resp).
Proof.
  intros Hg Hh Ht Hb Hprev.
  rewrite RestSensor_update_cases, Rest_update_cases, Hg, Hh.
  assert (Hdata : Rest_data
            (Rest_set_last_execution_time (t_done c)
               (Rest_set_data (PyStr (text resp)) (RestSensor.rest self)))
          = PyStr (text resp)).
  { destruct (RestSensor.rest self); reflexivity. }
  destruct (Rest_data (RestSensor.rest self)) as [| b | s | d];
    try contradiction; cbv zeta.
  - rewrite Hprev. cbv beta iota zeta. rewrite Hdata, Hb, Ht.
    eexists. split; [reflexivity|]. split; [reflexivity|].
    destruct self; exact Hdata.
  - cbv beta iota zeta. rewrite Hdata, Hb, Ht.
    eexists. split; [reflexivity|]. split; [reflexivity|].
    destruct self; exact Hdata.
Qed.

(** ** The throttle along a run of polls *)

Lemma run_cons {S} (method : M S unit) (c : Call) (calls : list Call) (s : S) :
  run method (c :: calls) s =
  mkStep c s (fst (fst (method c s))) (snd (method c s)) (snd (fst (method c s)))
    :: run method calls (snd (fst (method c s))).
Proof. cbn. destruct (method c s) as [[r s1] ev]. reflexivity. Qed.

(** Each step of a run is one call of the method on the object the
    previous step left. *)
Lemma run_steps_sound {S} (method : M S unit) (calls : list Call) :
  forall s,
    Forall (fun st =>
              method (step_call st) (step_before st)
              = (step_result st, step_after st, step_events st))
           (run method calls s).
Proof.
  induction calls as [| c calls IH]; intros s.
  - constructor.
  - rewrite run_cons. constructor.
    + cbn. destruct (method c s) as [[r s1] ev]. reflexivity.
    + apply IH.
Qed.

(** Once the time stamp has reached [t], every later call made less than
    the minimum interval after [t] is a no-op. *)
Lemma run_noop_after (t : Z) (calls : list Call) :
  Forall clock_advances calls ->
  forall r t',
    Rest_last_execution_time r = Some t' ->
    t <= t' ->
    Forall (fun st =>
              t_call (step_call st) - t < MIN_TIME_BETWEEN_UPDATES -> noop st)
           (run Rest_update calls r).
Proof.
  induction 1 as [| c calls Hc Hcalls IH]; intros r t' Hlast Hle.
  - constructor.
  - rewrite run_cons. unfold clock_advances in Hc.
    destruct (Rest_update_outcome c r)
      as [[Hg Hu] | [[Hg (r' & ev & Hu & Hstamp & _)] | [Hg (e & ev & Hu & _)]]];
      rewrite Hu; cbn [fst snd].
    + constructor; [intros _; repeat split | eapply IH; eauto].
    + unfold gate_open in Hg. rewrite Hlast in Hg. apply Z.leb_le in Hg.
      unfold MIN_TIME_BETWEEN_UPDATES in *.
      constructor; [cbn; intros Hlt; lia | eapply (IH r' (t_done c)); [exact Hstamp | lia]].
    + unfold gate_open in Hg. rewrite Hlast in Hg. apply Z.leb_le in Hg.
      unfold MIN_TIME_BETWEEN_UPDATES in *.
      constructor; [cbn; intros Hlt; lia | eapply IH; eauto].
Qed.

Lemma fetched_stamp (c : Call) (r : Rest) :
  fetched (mkStep c r (fst (fst (Rest_update c r))) (snd (Rest_update c r))
             (snd (fst (Rest_update c r)))) = true ->
  Rest_last_execution_time (snd (fst (Rest_update c r))) = Some (t_done c).
Proof.
  unfold fetched.
  destruct (Rest_update_outcome c r)
    as [[Hg Hu] | [[Hg (r' & ev & Hu & Hstamp & _)] | [Hg (e & ev & Hu & _)]]];
    rewrite Hu; cbn; auto; discriminate.
Qed.

Lemma noop_after_fetch (calls : list Call) :
  Forall clock_advances calls ->
  forall r i j si sj,
    (i < j)%nat ->
    run Rest_update calls r !! i = Some si ->
    run Rest_update calls r !! j = Some sj ->
    fetched si = true ->
    t_call (step_call sj) - t_done (step_call si) < MIN_TIME_BETWEEN_UPDATES ->
    noop sj.
Proof.
  induction 1 as [| c calls Hc Hcalls IH]; intros r i j si sj Hij Hi Hj Hf Hlt.
  - discriminate Hi.
  - rewrite run_cons in Hi, Hj.
    destruct j as [| j]; [lia|]. cbn in Hj.
    destruct i as [| i]; cbn in Hi.
    + injection Hi as <-. apply fetched_stamp in Hf. cbn in Hlt.
      pose proof (run_noop_after (t_done c) calls Hcalls _ _ Hf (Z.le_refl _))
        as Hall.
      rewrite Forall_lookup in Hall. exact (Hall j sj Hj Hlt).
    + eapply (IH _ i j); eauto. lia.
Qed.

(** No call changes what the fetcher will request. *)
Lemma Rest_update_request_fixed (c : Call) (r : Rest) :
  Rest_request (snd (fst (Rest_update c r))) = Rest_request r.
Proof.
  destruct (Rest_update_outcome c r)
    as [[_ Hu] | [[_ (r' & ev & Hu & _ & Hrq & _)] | [_ (e & ev & Hu & _)]]];
    rewrite Hu; cbn; auto.
Qed.

Lemma Rest_update_requests (c : Call) (r : Rest) :
  requests_of (snd (Rest_update c r)) =
  if gate_open c r then [EvRequest (Rest_request r)] else [].
Proof.
  destruct (Rest_update_outcome c r)
    as [[Hg Hu] | [[Hg (r' & ev & Hu & _ & _ & Hrq)] | [Hg (e & ev & Hu & Hrq)]]];
    rewrite Hu, Hg; cbn; auto.
Qed.

Lemma run_requests_fixed (calls : list Call) :
  forall r,
    Forall (fun st =>
              requests_of (step_events st) =
              if gate_open (step_call st) (step_before st)
              then [EvRequest (Rest_request r)] else [])
           (run Rest_update calls r).
Proof.
  induction calls as [| c calls IH]; intros r; [constructor|].
  rewrite run_cons. constructor.
  - cbn. apply Rest_update_requests.
  - rewrite <- (Rest_update_request_fixed c r). apply IH.
Qed.

(** C2, as the code has it. Along any run of calls of a fetcher's
    throttled [update] (the clock not going back while a call is served),
    with the minimum interval of 60 seconds. A call executes, that is
    issues its one request, exactly when the gate is open: it is the first,
    or it is made at least the minimum interval after the time stamp. The
    time stamp is set by the calls whose body returns, and by them only: a
    call made less than the minimum interval after the time stamp, or after
    an earlier call that fetched (executed and returned), is a no-op that
    issues no request and leaves the cache unchanged; hence two calls that
    both fetched are at least the minimum interval apart. A call whose body
    raises has issued its request and leaves cache and time stamp as they
    were, so it does not throttle the calls that follow. No call issues
    more than one request. *)
Theorem throttled_update_once_per_interval (r : Rest) (calls : list Call) :
  Forall clock_advances calls ->
  MIN_TIME_BETWEEN_UPDATES = 60 /\
  (Rest_last_execution_time r = None ->
   forall st,
     run Rest_update calls r !! 0%nat = Some st ->
     requests_of (step_events st) = [EvRequest (Rest_request r)]) /\
  Forall (fun st =>
            forall t,
              Rest_last_execution_time (step_before st) = Some t ->
              t_call (step_call st) - t < MIN_TIME_BETWEEN_UPDATES ->
              noop st)
         (run Rest_update calls r) /\
  (forall i j si sj,
     (i < j)%nat ->
     run Rest_update calls r !! i = Some si ->
     run Rest_update calls r !! j = Some sj ->
     fetched si = true ->
     t_call (step_call sj) - t_done (step_call si) < MIN_TIME_BETWEEN_UPDATES ->
     noop sj) /\
  (forall i j si sj,
     (i < j)%nat ->
     run Rest_update calls r !! i = Some si ->
     run Rest_update calls r !! j = Some sj ->
     fetched si = true ->
     fetched sj = true ->
     MIN_TIME_BETWEEN_UPDATES <= t_call (step_call sj) - t_done (step_call si)) /\
  Forall (fun st => (length (requests_of (step_events st)) <= 1)%nat)
         (run Rest_update calls r) /\
  Forall (fun st =>
            requests_of (step_events st) =
            if gate_open (step_call st) (step_before st)
            then [EvRequest (Rest_request r)] else [])
         (run Rest_update calls r) /\
  Forall (fun st =>
            forall e,
              step_result st = Raise e ->
              gate_open (step_call st) (step_before st) = true /\
              step_after st = step_before st)
         (run Rest_update calls r).
Proof.
  intros Hclock. split; [reflexivity|].
  split; [|split; [|split; [|split; [|split; [|split]]]]].
  - intros Hfresh st Hst. destruct calls as [| c calls]; [discriminate Hst|].
    rewrite run_cons in Hst. cbn in Hst. injection Hst as <-. cbn.
    pose proof (gate_open_fresh c r Hfresh) as Hg.
    destruct (Rest_update_outcome c r)
      as [[Hg' _] | [[_ (r' & ev & Hu & _ & _ & Hrq)] | [_ (e & ev & Hu & Hrq)]]];
      [congruence | rewrite Hu; exact Hrq | rewrite Hu; exact Hrq].
  - eapply Forall_impl; [apply run_steps_sound|].
    intros st Hst t Hlast Hlt. cbv beta in Hst.
    rewrite (Rest_update_throttled _ _ (gate_closed_within _ _ _ Hlast Hlt)) in Hst.
    injection Hst as Hres Haft Hev. unfold noop. auto.
  - apply noop_after_fetch. exact Hclock.
  - intros i j si sj Hij Hi Hj Hfi Hfj.
    destruct (Z_lt_le_dec (t_call (step_call sj) - t_done (step_call si))
                          MIN_TIME_BETWEEN_UPDATES) as [Hlt | Hle]; [|exact Hle].
    destruct (noop_after_fetch calls Hclock r i j si sj Hij Hi Hj Hfi Hlt)
      as (_ & Hev & _).
    unfold fetched in Hfj. rewrite Hev in Hfj.
    destruct (step_result sj); discriminate Hfj.
  - eapply Forall_impl; [apply run_steps_sound|].
    intros st Hst. cbv beta in Hst.
    destruct (Rest_update_outcome (step_call st) (step_before st))
      as [[_ Hu] | [[_ (r' & ev & Hu & _ & _ & Hrq)] | [_ (e & ev & Hu & Hrq)]]];
      rewrite Hu in Hst; injection Hst as Hres Haft Hev; rewrite <- Hev;
      [cbn; lia | rewrite Hrq; cbn; lia | rewrite Hrq; cbn; lia].
  - apply run_requests_fixed.
  - eapply Forall_impl; [apply run_steps_sound|].
    intros st Hst e He. cbv beta in Hst.
    destruct (Rest_update_outcome (step_call st) (step_before st))
      as [[_ Hu] | [[_ (r' & ev & Hu & _)] | [Hg (e' & ev & Hu & _)]]];
      rewrite Hu in Hst; injection Hst as Hres Haft Hev;
      try (rewrite He in Hres; discriminate Hres).
    split; [exact Hg | symmetry; exact Haft].
Qed.

Lemma throttled_update_once_per_interval_witness :
  Forall clock_advances sample_calls /\
  (exists s0 s1 s2,
     run Rest_update sample_calls (RestGet sample_get) = [s0; s1; s2] /\
     fetched s0 = true /\ noop s1 /\ fetched s2 = true /\
     MIN_TIME_BETWEEN_UPDATES <= t_call (step_call s2) - t_done (step_call s0)).
Proof.
  assert (Hclock : Forall clock_advances sample_calls).
  { repeat constructor; unfold clock_advances; cbn; lia. }
  split; [exact Hclock|].
  destruct (throttled_update_once_per_interval (RestGet sample_get)
              sample_calls Hclock) as (_ & _ & _ & Hnoop & Hapart & _).
  eexists _, _, _. split; [reflexivity|].
  split; [reflexivity|]. split; [|split; [reflexivity|]].
  - eapply (Hnoop 0%nat 1%nat); [lia | reflexivity | reflexivity | reflexivity |].
    cbn. unfold MIN_TIME_BETWEEN_UPDATES. lia.
  - eapply (Hapart 0%nat 2%nat); [lia | reflexivity | reflexivity | reflexivity
                                  | reflexivity].
Defined.

(** The time stamp is that of the last call that completed: a call whose
    body raises leaves it alone, so the next call, a second later, is not
    throttled and issues its request. *)
Lemma raising_call_does_not_throttle :
  run Rest_update [fails 100 110 ReadTimeout; responds 111 112 "42.5"]
      (RestGet sample_get)
  = [mkStep (fails 100 110 ReadTimeout) (RestGet sample_get)
       (Raise ReadTimeout) [EvRequest sample_get_request] (RestGet sample_get);
     mkStep (responds 111 112 "42.5") (RestGet sample_get)
       (Ok tt) [EvRequest sample_get_request]
       (RestGet (sample_get_holding "42.5" 112))].
Proof. reflexivity. Qed.

(** C2 as stated fails: over a cache that holds the text ['error: none'],
    three polls two seconds apart each pass the gate and issue the request;
    each raises [TypeError] at [del self.data['error']], so the time stamp
    stays where it was and the next poll is not throttled. The second poll
    comes two seconds after a call that executed and is not a no-op. *)
Lemma raising_polls_repeat_the_request :
  run Rest_update
      [responds 100 101 "7"; responds 102 103 "8"; responds 104 105 "9"]
      (RestGet (sample_get_holding "error: none" 1))
  = [mkStep (responds 100 101 "7") (RestGet (sample_get_holding "error: none" 1))
       (Raise TypeError) [EvRequest sample_get_request]
       (RestGet (sample_get_holding "error: none" 1));
     mkStep (responds 102 103 "8") (RestGet (sample_get_holding "error: none" 1))
       (Raise TypeError) [EvRequest sample_get_request]
       (RestGet (sample_get_holding "error: none" 1));
     mkStep (responds 104 105 "9") (RestGet (sample_get_holding "error: none" 1))
       (Raise TypeError) [EvRequest sample_get_request]
       (RestGet (sample_get_holding "error: none" 1))] /\
  t_call (responds 102 103 "8") - t_done (responds 100 101 "7")
    < MIN_TIME_BETWEEN_UPDATES /\
  ~ noop (mkStep (responds 102 103 "8")
            (RestGet (sample_get_holding "error: none" 1))
            (Raise TypeError) [EvRequest sample_get_request]
            (RestGet (sample_get_holding "error: none" 1))).
Proof.
  split; [reflexivity|]. split; [reflexivity|].
  intros (Hres & _). discriminate Hres.
Qed.

(** ** The request a fetcher issues *)

Lemma run_RestPost (calls : list Call) :
  forall p,
    run Rest_update calls (RestPost p) =
    map (fun st => mkStep (step_call st) (RestPost (step_before st))
                     (step_result st) (step_events st)
                     (RestPost (step_after st)))
        (run RestDataPost.update calls p).
Proof.
  induction calls as [| c calls IH]; intros p; [reflexivity|].
  rewrite !run_cons.
  cbn [map step_call step_before step_result step_events step_after].
  assert (Hu : Rest_update c (RestPost p) =
               (fst (fst (RestDataPost.update c p)),
                RestPost (snd (fst (RestDataPost.update c p))),
                snd (RestDataPost.update c p))).
  { unfold Rest_update. destruct (RestDataPost.update c p) as [[res p'] ev].
    reflexivity. }
  rewrite Hu. cbn [fst snd]. rewrite IH. reflexivity.
Qed.

Lemma run_RestGet (calls : list Call) :
  forall g,
    run Rest_update calls (RestGet g) =
    map (fun st => mkStep (step_call st) (RestGet (step_before st))
                     (step_result st) (step_events st)
                     (RestGet (step_after st)))
        (run RestDataGet.update calls g).
Proof.
  induction calls as [| c calls IH]; intros g; [reflexivity|].
  rewrite !run_cons.
  cbn [map step_call step_before step_result step_events step_after].
  assert (Hu : Rest_update c (RestGet g) =
               (fst (fst (RestDataGet.update c g)),
                RestGet (snd (fst (RestDataGet.update c g))),
                snd (RestDataGet.update c g))).
  { unfold Rest_update. destruct (RestDataGet.update c g) as [[res g'] ev].
    reflexivity. }
  rewrite Hu. cbn [fst snd]. rewrite IH. reflexivity.
Qed.

Lemma requests_of_In (rq : Request) (ev : list Event) :
  In (EvRequest rq) ev -> In (EvRequest rq) (requests_of ev).
Proof. intros Hin. apply filter_In. split; [exact Hin | reflexivity]. Qed.

(** C7. Along any run of polls of a [RestDataPost] built with a payload,
    every call that executes issues exactly one request, a POST to the
    resource carrying that payload, and a throttled call issues none; no
    other request is ever issued. Along any run of polls of a [RestDataGet]
    the same holds with a GET that carries no body. *)
Theorem post_carries_payload_get_carries_no_body
    (resource payload verify_ssl : PyVal) (calls : list Call) :
  Forall (fun st =>
            requests_of (step_events st) =
              (if gate_open (step_call st) (RestPost (step_before st))
               then [EvRequest (mkRequest POST resource (Some payload) 10 verify_ssl)]
               else []) /\
            forall rq,
              In (EvRequest rq) (step_events st) ->
              verb rq = POST /\ body rq = Some payload)
         (run RestDataPost.update calls
            (RestDataPost.__init__ resource payload verify_ssl)) /\
  Forall (fun st =>
            requests_of (step_events st) =
              (if gate_open (step_call st) (RestGet (step_before st))
               then [EvRequest (mkRequest GET resource None 10 verify_ssl)]
               else []) /\
            forall rq,
              In (EvRequest rq) (step_events st) ->
              verb rq = GET /\ body rq = None)
         (run RestDataGet.update calls (RestDataGet.__init__ resource verify_ssl)).
Proof.
  split.
  - pose proof (run_requests_fixed calls
                  (RestPost (RestDataPost.__init__ resource payload verify_ssl)))
      as Hall.
    rewrite run_RestPost, Forall_map in Hall.
    eapply Forall_impl; [exact Hall|].
    intros st Hst.
    cbn [step_call step_before step_result step_events step_after] in Hst.
    split; [exact Hst|].
    intros rq Hin. apply requests_of_In in Hin. rewrite Hst in Hin.
    destruct (gate_open _ _); [|contradiction].
    destruct Hin as [Heq | []]. injection Heq as <-. split; reflexivity.
  - pose proof (run_requests_fixed calls
                  (RestGet (RestDataGet.__init__ resource verify_ssl)))
      as Hall.
    rewrite run_RestGet, Forall_map in Hall.
    eapply Forall_impl; [exact Hall|].
    intros st Hst.
    cbn [step_call step_before step_result step_events step_after] in Hst.
    split; [exact Hst|].
    intros rq Hin. apply requests_of_In in Hin. rewrite Hst in Hin.
    destruct (gate_open _ _); [|contradiction].
    destruct Hin as [Heq | []]. injection Heq as <-. split; reflexivity.
Qed.

(** ** Platform setup *)

Lemma py_eq_str_false (v : PyVal) (s : string) :
  v <> PyStr s -> py_eq_str v s = false.
Proof.
  destruct v as [| b | s' | d]; cbn; auto.
  intros Hne. apply String.eqb_neq. congruence.
Qed.

Section Setup.
Context `{Host}.

(** C6, as the code has it. When the preflight request of a setup attempt
    fails with [MissingSchema] (a URL without scheme), with an exception of
    the [ConnectionError] family, or with a response whose status is not ok,
    [setup_platform] logs the matching diagnostic (with the numeric status
    code in the last case) and returns [False]; nothing more is requested,
    no sensor is constructed and the list of registered entities is what it
    was: [add_devices] is not called. A URL whose scheme is malformed is
    another matter: [requests] raises [InvalidSchema] or [InvalidURL], which
    no clause handles; the exception leaves [setup_platform], nothing is
    logged and nothing is returned; nothing is registered either. *)
Theorem setup_fails_on_preflight_error
    (hass : Hass) (config : gmap string PyVal) (first_poll c : Call)
    (devices : list RestSensor.t) (rq : Request) :
  preflight_request config = Some rq ->
  (forall e,
     http c rq = Raise e ->
     isinstance_MissingSchema e = true ->
     setup_platform hass config first_poll c devices =
       (Ok ReturnFalse, devices, [EvRequest rq; EvLogError schema_message []])) /\
  (forall e,
     http c rq = Raise e ->
     isinstance_ConnectionError e = true ->
     setup_platform hass config first_poll c devices =
       (Ok ReturnFalse, devices, [EvRequest rq; EvLogError route_message []])) /\
  (forall resp,
     http c rq = Ok resp ->
     ok resp = false ->
     setup_platform hass config first_poll c devices =
       (Ok ReturnFalse, devices,
        [EvRequest rq; EvLogError status_message [status_code resp]])) /\
  (forall e,
     http c rq = Raise e ->
     e = InvalidSchema \/ e = InvalidURL ->
     setup_platform hass config first_poll c devices =
       (Raise e, devices, [EvRequest rq])).
Proof.
  unfold preflight_request, setup_platform. intros Hrq.
  assert (Hfamily : forall e,
            isinstance_ConnectionError e = true ->
            isinstance_MissingSchema e = false).
  { intros e He. destruct e; try discriminate He; reflexivity. }
  destruct (py_eq_str (config_get config "method" (PyStr DEFAULT_METHOD)) "GET");
    [| destruct (py_eq_str (config_get config "method" (PyStr DEFAULT_METHOD))
                   "POST"); [| discriminate Hrq]];
    injection Hrq as <-; unfold_py; repeat split.
  all: try (intros e Hh He; rewrite Hh;
            first [ rewrite He; reflexivity
                  | rewrite (Hfamily e He), He; reflexivity
                  | destruct He as [-> | ->]; reflexivity ]).
  all: intros resp Hh Hok; rewrite Hh, Hok; reflexivity.
Qed.

(** C10. When the configuration gives a method that is neither ['GET'] nor
    ['POST'], [setup_platform] issues no request and reads the local
    variable [response], which was never assigned: [UnboundLocalError]
    leaves the function, which is none of the handled classes. Nothing is
    logged, no value is returned and no entity is registered. *)
Theorem setup_raises_on_other_method
    (hass : Hass) (config : gmap string PyVal) (first_poll c : Call)
    (devices : list RestSensor.t) (method : PyVal) :
  config !! "method" = Some method ->
  method <> PyStr "GET" ->
  method <> PyStr "POST" ->
  preflight_request config = None /\
  setup_platform hass config first_poll c devices =
    (Raise UnboundLocalError, devices, []).
Proof.
  intros Hm Hget Hpost.
  assert (Hcfg : config_get config "method" (PyStr DEFAULT_METHOD) = method).
  { unfold config_get. rewrite Hm. reflexivity. }
  unfold preflight_request, setup_platform. rewrite Hcfg.
  rewrite (py_eq_str_false _ _ Hget), (py_eq_str_false _ _ Hpost).
  split; reflexivity.
Qed.

End Setup.

Lemma setup_fails_on_preflight_error_witness :
  preflight_request {["resource" := PyStr "http://localhost/api"]}
    = Some sample_get_request /\
  @setup_platform echo_host tt {["resource" := PyStr "http://localhost/api"]}
      (responds 2 3 "42.5") (world 0 1 (Ok (mkResponse 404 "not found"))) []
    = (Ok ReturnFalse, [],
       [EvRequest sample_get_request; EvLogError status_message [404]]).
Proof.
  split; [reflexivity|].
  exact (proj1 (proj2 (proj2
           (@setup_fails_on_preflight_error echo_host tt
              {["resource" := PyStr "http://localhost/api"]}
              (responds 2 3 "42.5") (world 0 1 (Ok (mkResponse 404 "not found")))
              [] sample_get_request eq_refl)))
           (mkResponse 404 "not found") eq_refl eq_refl).
Defined.

(** C6 as stated fails: the resource ['htp://localhost/api'] has a malformed
    scheme, [requests.get] raises [InvalidSchema], and neither clause of
    [setup_platform] handles it: the exception leaves the function, no
    diagnostic is logged and [False] is not returned. *)
Lemma malformed_schema_escapes_setup :
  isinstance_MissingSchema InvalidSchema = false /\
  isinstance_ConnectionError InvalidSchema = false /\
  @setup_platform echo_host tt {["resource" := PyStr "htp://localhost/api"]}
      (responds 2 3 "42.5") (fails 0 0 InvalidSchema) []
    = (Raise InvalidSchema, [],
       [EvRequest (mkRequest GET (PyStr "htp://localhost/api") None 10
                     (PyBool true))]).
Proof. repeat split. Qed.

Lemma setup_raises_on_other_method_witness :
  ({["method" := PyStr "PUT"]} : gmap string PyVal) !! "method"
    = Some (PyStr "PUT") /\
  @setup_platform echo_host tt {["method" := PyStr "PUT"]}
      (responds 2 3 "42.5") (responds 0 1 "42.5") []
    = (Raise UnboundLocalError, [], []).
Proof.
  split; [reflexivity|].
  refine (proj2 (@setup_raises_on_other_method echo_host tt
                   {["method" := PyStr "PUT"]}
                   (responds 2 3 "42.5") (responds 0 1 "42.5") []
                   (PyStr "PUT") eq_refl _ _)); discriminate.
Defined.

(** ** Polling twice inside one throttle window *)

Section Window.
Context `{Host}.

Ltac sensor_fields :=
  cbn [RestSensor.rest RestSensor._value_template RestSensor._hass
       RestSensor._state RestSensor.state RestSensor.set_rest
       RestSensor.set_state].

Ltac sensor_fields_in Hyp :=
  cbn [RestSensor.rest RestSensor._value_template RestSensor._hass
       RestSensor._state RestSensor.state RestSensor.set_rest
       RestSensor.set_state] in Hyp.

Ltac replay H1 Hclosed :=
  injection H1 as <- <- <-; sensor_fields_in Hclosed;
  rewrite RestSensor_update_cases; sensor_fields;
  rewrite (Rest_update_throttled _ _ Hclosed); cbv beta zeta;
  repeat match goal with
         | E : ?x = _ |- context [?x] => rewrite E
         end;
  reflexivity.

(** A call whose fetch returned, followed by a call that the gate stops:
    the second call ends as the first did and changes nothing. *)
Lemma update_then_throttled
    (c1 c2 : Call) (self self1 : RestSensor.t) (res1 : Res unit)
    (ev1 : list Event) :
  RestSensor.update c1 self = (res1, self1, ev1) ->
  fst (fst (Rest_update c1 (RestSensor.rest self))) = Ok tt ->
  gate_open c2 (RestSensor.rest self1) = false ->
  RestSensor.update c2 self1 = (res1, self1, []).
Proof.
  intros H1 Hok Hclosed.
  destruct self as [hass r nm st unit tpl].
  rewrite RestSensor_update_cases in H1. sensor_fields_in H1.
  sensor_fields_in Hok.
  destruct (Rest_update c1 r) as [[[[] | e] r1] evr]; [|discriminate Hok].
  cbv beta zeta in H1.
  destruct (Rest_data r1) as [| b | s | d] eqn:Hd.
  - replay H1 Hclosed.
  - replay H1 Hclosed.
  - destruct (str_contains "error" s) eqn:Hs; [replay H1 Hclosed|].
    destruct tpl as [| tb | ts | td]; [replay H1 Hclosed | | |];
      (destruct (render_with_possible_json_value _ _ _ _) eqn:Hr;
       replay H1 Hclosed).
  - destruct (d !! "error") eqn:Hl; [replay H1 Hclosed|].
    destruct tpl as [| tb | ts | td]; [replay H1 Hclosed | | |];
      (destruct (render_with_possible_json_value _ _ _ _) eqn:Hr;
       replay H1 Hclosed).
Qed.

(** C8, as the code has it. Two successive calls of [RestSensor.update],
    the second not earlier than the first, that fall in the window of one
    and the same execution: when the first call has ended, the fetcher's
    time stamp is [t] (set by the first call if it fetched, older if the
    first call was throttled) and the second call is made less than the
    minimum interval after [t]. Then the second call issues no request,
    leaves the sensor and its cache as the first call left them, and so the
    published state after the second call is the published state after the
    first. That the two calls are less than the minimum interval apart is
    not enough. *)
Theorem update_twice_in_window_same_state
    (c1 c2 : Call) (self self1 self2 : RestSensor.t)
    (res1 res2 : Res unit) (ev1 ev2 : list Event) (t : Z) :
  RestSensor.update c1 self = (res1, self1, ev1) ->
  RestSensor.update c2 self1 = (res2, self2, ev2) ->
  t_call c1 <= t_call c2 ->
  Rest_last_execution_time (RestSensor.rest self1) = Some t ->
  t_call c2 - t < MIN_TIME_BETWEEN_UPDATES ->
  RestSensor.state self2 = RestSensor.state self1 /\
  Rest_data (RestSensor.rest self2) = Rest_data (RestSensor.rest self1) /\
  ev2 = [].
Proof.
  intros H1 H2 Hle Hstamp Hlt.
  pose proof (gate_closed_within c2 _ t Hstamp Hlt) as Hclosed.
  assert (Hok : fst (fst (Rest_update c1 (RestSensor.rest self))) = Ok tt).
  { destruct (Rest_update_outcome c1 (RestSensor.rest self))
      as [[Hg Hu] | [[Hg (r' & ev & Hu & _)] | [Hg (e & ev & Hu & _)]]];
      try (rewrite Hu; reflexivity).
    exfalso.
    rewrite RestSensor_update_cases, Hu in H1. injection H1 as _ <- _.
    destruct self as [hass r nm st unit tpl]. sensor_fields_in Hstamp.
    sensor_fields_in Hg. unfold gate_open in Hg. rewrite Hstamp in Hg.
    apply Z.leb_le in Hg. lia. }
  rewrite (update_then_throttled c1 c2 self self1 res1 ev1 H1 Hok Hclosed) in H2.
  injection H2 as _ <- <-. auto.
Qed.

(** The usual case of C8: the first call fetches, and the second call is
    made after it has ended and less than the minimum interval after it
    was made. *)
Lemma update_twice_after_fetch_same_state
    (c1 c2 : Call) (self self1 self2 : RestSensor.t)
    (res1 res2 : Res unit) (ev1 ev2 : list Event) :
  RestSensor.update c1 self = (res1, self1, ev1) ->
  RestSensor.update c2 self1 = (res2, self2, ev2) ->
  gate_open c1 (RestSensor.rest self) = true ->
  fst (fst (Rest_update c1 (RestSensor.rest self))) = Ok tt ->
  t_call c1 <= t_done c1 ->
  t_done c1 <= t_call c2 ->
  t_call c2 - t_call c1 < MIN_TIME_BETWEEN_UPDATES ->
  RestSensor.state self2 = RestSensor.state self1 /\
  Rest_data (RestSensor.rest self2) = Rest_data (RestSensor.rest self1) /\
  ev2 = [].
Proof.
  intros H1 H2 Hg Hok Hadv Hseq Hlt.
  assert (Hstamp : Rest_last_execution_time (RestSensor.rest self1)
                   = Some (t_done c1)).
  { assert (Hrest : RestSensor.rest self1
                    = snd (fst (Rest_update c1 (RestSensor.rest self)))).
    { rewrite RestSensor_update_cases in H1.
      destruct self as [hass r nm st unit tpl]. sensor_fields_in H1.
      sensor_fields.
      destruct (Rest_update c1 r) as [[[[] | e] r1] evr];
        [|injection H1 as _ <- _; reflexivity].
      cbv beta zeta in H1.
      repeat match type of H1 with
             | context [match ?x with _ => _ end] => destruct x
             end;
        injection H1 as _ <- _; reflexivity. }
    rewrite Hrest.
    destruct (Rest_update_outcome c1 (RestSensor.rest self))
      as [[Hg' Hu] | [[_ (r' & ev & Hu & Hst & _)] | [_ (e & ev & Hu & _)]]].
    - congruence.
    - rewrite Hu. exact Hst.
    - rewrite Hu in Hok. discriminate Hok. }
  eapply update_twice_in_window_same_state; eauto; lia.
Qed.

End Window.

Lemma update_twice_in_window_same_state_witness :
  t_call (responds 0 1 "42.5") <= t_call (responds 30 31 "43") /\
  t_call (responds 30 31 "43") - 1 < MIN_TIME_BETWEEN_UPDATES /\
  RestSensor.state
    (snd (fst (RestSensor.update (responds 30 31 "43")
       (snd (fst (RestSensor.update (responds 0 1 "42.5")
                    (sample_sensor sample_get (PyStr "n/a"))))))))
  = PyStr "42.5".
Proof.
  assert (Hle : t_call (responds 0 1 "42.5") <= t_call (responds 30 31 "43"))
    by (cbn; lia).
  assert (Hlt : t_call (responds 30 31 "43") - 1 < MIN_TIME_BETWEEN_UPDATES)
    by (cbn; unfold MIN_TIME_BETWEEN_UPDATES; lia).
  split; [exact Hle|]. split; [exact Hlt|].
  exact (proj1 (@update_twice_in_window_same_state echo_host
                  (responds 0 1 "42.5") (responds 30 31 "43")
                  (sample_sensor sample_get (PyStr "n/a"))
                  (sample_sensor (sample_get_holding "42.5" 1) (PyStr "42.5"))
                  (sample_sensor (sample_get_holding "42.5" 1) (PyStr "42.5"))
                  (Ok tt) (Ok tt) [EvRequest sample_get_request] [] 1
                  eq_refl eq_refl Hle eq_refl Hlt)).
Defined.

(** C8 as stated fails: the cache holds ['42.5'], fetched at second 1. A
    call at second 60 is throttled and publishes ['42.5']; a call three
    seconds later is past the window, fetches ['43'] and publishes it. The
    two calls are less than the minimum interval apart and the published
    states differ. *)
Lemma calls_three_seconds_apart_publish_different_states :
  t_call (responds 63 64 "43") - t_call (responds 60 61 "43")
    < MIN_TIME_BETWEEN_UPDATES /\
  RestSensor.update (responds 60 61 "43")
      (sample_sensor (sample_get_holding "42.5" 1) (PyStr "42.5"))
    = (Ok tt, sample_sensor (sample_get_holding "42.5" 1) (PyStr "42.5"), []) /\
  RestSensor.update (responds 63 64 "43")
      (sample_sensor (sample_get_holding "42.5" 1) (PyStr "42.5"))
    = (Ok tt, sample_sensor (sample_get_holding "43" 64) (PyStr "43"),
       [EvRequest sample_get_request]) /\
  RestSensor.state (sample_sensor (sample_get_holding "43" 64) (PyStr "43"))
    <> RestSensor.state
         (sample_sensor (sample_get_holding "42.5" 1) (PyStr "42.5")).
Proof.
  split; [reflexivity|]. split; [reflexivity|]. split; [reflexivity|].
  discriminate.
Qed.

(** ** Construction *)

Section Construction.
Context `{Host}.

(** What the state is when the constructor returns. *)
Lemma constructor_state_when_it_returns
    (hass : Hass) (rest0 : Rest) (name0 unit0 value_template : PyVal)
    (c : Call) :
  Rest_data rest0 = PyDict ∅ ->
  Rest_last_execution_time rest0 = None ->
  requests_of (snd (RestSensor.__init__ hass rest0 name0 unit0 value_template c))
    = [EvRequest (Rest_request rest0)] /\
  forall self,
    fst (RestSensor.__init__ hass rest0 name0 unit0 value_template c) = Ok self ->
    (exists resp,
       http c (Rest_request rest0) = Ok resp /\
       Rest_data (RestSensor.rest self) = PyStr (text resp) /\
       match value_template with
       | PyNone => RestSensor.state self = PyStr (text resp)
       | _ =>
           exists rendered,
             render_with_possible_json_value hass value_template
               (PyStr (text resp)) "N/A" = Ok rendered /\
             RestSensor.state self = PyStr rendered
       end) \/
    (exists e,
       http c (Rest_request rest0) = Raise e /\
       isinstance_ConnectionError e = true /\
       RestSensor.state self = PyStr "N/A").
Proof.
  intros Hdata Hfresh.
  unfold RestSensor.__init__.
  rewrite RestSensor_update_cases.
  cbn [RestSensor.rest RestSensor._value_template RestSensor._hass].
  rewrite Rest_update_cases, (gate_open_fresh c rest0 Hfresh), Hdata.
  assert (Hset : forall v z,
            Rest_data (Rest_set_last_execution_time z (Rest_set_data v rest0)) = v).
  { intros v z. destruct rest0; reflexivity. }
  destruct (http c (Rest_request rest0)) as [resp | e].
  - cbv beta iota zeta. rewrite Hset.
    destruct (str_contains "error" (text resp)).
    + split; [reflexivity|]. intros self Hself. discriminate Hself.
    + destruct value_template as [| tb | ts | td];
        try (destruct (render_with_possible_json_value _ _ _ _) as [rendered|e]
               eqn:Hr);
        (split; [reflexivity|]); intros self Hself;
        try discriminate Hself; cbn in Hself; injection Hself as <-;
        left; exists resp; cbn; rewrite Hset; eauto.
  - destruct (isinstance_ConnectionError e) eqn:He.
    + cbv beta iota zeta. rewrite Hset, lookup_insert_eq.
      split; [reflexivity|]. intros self Hself. cbn in Hself.
      injection Hself as <-. right. exists e. auto.
    + split; [reflexivity|]. intros self Hself. discriminate Hself.
Qed.


(** When the constructor does return. *)
Lemma constructor_returns
    (hass : Hass) (rest0 : Rest) (name0 unit0 value_template : PyVal)
    (c : Call) :
  Rest_data rest0 = PyDict ∅ ->
  Rest_last_execution_time rest0 = None ->
  (forall resp,
     http c (Rest_request rest0) = Ok resp ->
     str_contains "error" (text resp) = false ->
     value_template = PyNone ->
     exists self,
       RestSensor.__init__ hass rest0 name0 unit0 value_template c
         = (Ok self, [EvRequest (Rest_request rest0)]) /\
       RestSensor.state self = PyStr (text resp)) /\
  (forall resp rendered,
     http c (Rest_request rest0) = Ok resp ->
     str_contains "error" (text resp) = false ->
     value_template <> PyNone ->
     render_with_possible_json_value hass value_template
       (PyStr (text resp)) "N/A" = Ok rendered ->
     exists self,
       RestSensor.__init__ hass rest0 name0 unit0 value_template c
         = (Ok self, [EvRequest (Rest_request rest0)]) /\
       RestSensor.state self = PyStr rendered) /\
  (forall e,
     http c (Rest_request rest0) = Raise e ->
     isinstance_ConnectionError e = true ->
     exists self,
       RestSensor.__init__ hass rest0 name0 unit0 value_template c
         = (Ok self, [EvRequest (Rest_request rest0); no_route]) /\
       RestSensor.state self = PyStr "N/A").
Proof.
  intros Hdata Hfresh.
  assert (Hset : forall v z,
            Rest_data (Rest_set_last_execution_time z (Rest_set_data v rest0)) = v).
  { intros v z. destruct rest0; reflexivity. }
  unfold RestSensor.__init__.
  rewrite RestSensor_update_cases.
  cbn [RestSensor.rest RestSensor._value_template RestSensor._hass].
  rewrite Rest_update_cases, (gate_open_fresh c rest0 Hfresh), Hdata.
  split; [|split].
  - intros resp Hh Hb ->. rewrite Hh. cbv beta iota zeta. rewrite Hset, Hb.
    eexists. split; reflexivity.
  - intros resp rendered Hh Hb Ht Hr. rewrite Hh. cbv beta iota zeta.
    rewrite Hset, Hb.
    destruct value_template as [| tb | ts | td]; [contradiction Ht; reflexivity | | |];
      rewrite Hr; eexists; split; reflexivity.
  - intros e Hh He. rewrite Hh, He. cbv beta iota zeta.
    rewrite Hset, lookup_insert_eq. eexists. split; reflexivity.
Qed.

(** C9. Building a [RestSensor] around a fresh fetcher (empty dictionary,
    throttle never run, as [setup_platform] passes it) issues exactly one
    request, whatever comes of it. When the constructor returns, the state
    it leaves was published from that fetch: either the request succeeded
    and the state is the body received (without template) or its rendering
    (with a template), or the request met a connection error and the state
    is the sentinel ['N/A']. And the constructor does return then: with the
    body received when no template is configured, with the rendering when
    the renderer yields one, both for a body that does not contain
    ['error'], and with ['N/A'] after a connection error. *)
Theorem constructor_publishes_first_fetch
    (hass : Hass) (rest0 : Rest) (name0 unit0 value_template : PyVal)
    (c : Call) :
  Rest_data rest0 = PyDict ∅ ->
  Rest_last_execution_time rest0 = None ->
  (requests_of (snd (RestSensor.__init__ hass rest0 name0 unit0 value_template c))
     = [EvRequest (Rest_request rest0)] /\
   forall self,
     fst (RestSensor.__init__ hass rest0 name0 unit0 value_template c) = Ok self ->
     (exists resp,
        http c (Rest_request rest0) = Ok resp /\
        Rest_data (RestSensor.rest self) = PyStr (text resp) /\
        match value_template with
        | PyNone => RestSensor.state self = PyStr (text resp)
        | _ =>
            exists rendered,
              render_with_possible_json_value hass value_template
                (PyStr (text resp)) "N/A" = Ok rendered /\
              RestSensor.state self = PyStr rendered
        end) \/
     (exists e,
        http c (Rest_request rest0) = Raise e /\
        isinstance_ConnectionError e = true /\
        RestSensor.state self = PyStr "N/A")) /\
  (forall resp,
     http c (Rest_request rest0) = Ok resp ->
     str_contains "error" (text resp) = false ->
     value_template = PyNone ->
     exists self,
       RestSensor.__init__ hass rest0 name0 unit0 value_template c
         = (Ok self, [EvRequest (Rest_request rest0)]) /\
       RestSensor.state self = PyStr (text resp)) /\
  (forall resp rendered,
     http c (Rest_request rest0) = Ok resp ->
     str_contains "error" (text resp) = false ->
     value_template <> PyNone ->
     render_with_possible_json_value hass value_template
       (PyStr (text resp)) "N/A" = Ok rendered ->
     exists self,
       RestSensor.__init__ hass rest0 name0 unit0 value_template c
         = (Ok self, [EvRequest (Rest_request rest0)]) /\
       RestSensor.state self = PyStr rendered) /\
  (forall e,
     http c (Rest_request rest0) = Raise e ->
     isinstance_ConnectionError e = true ->
     exists self,
       RestSensor.__init__ hass rest0 name0 unit0 value_template c
         = (Ok self, [EvRequest (Rest_request rest0); no_route]) /\
       RestSensor.state self = PyStr "N/A").
Proof.
  intros Hdata Hfresh. split.
  - exact (constructor_state_when_it_returns hass rest0 name0 unit0
             value_template c Hdata Hfresh).
  - exact (constructor_returns hass rest0 name0 unit0 value_template c
             Hdata Hfresh).
Qed.

End Construction.

Lemma constructor_publishes_first_fetch_witness :
  Rest_data (RestGet sample_get) = PyDict ∅ /\
  Rest_last_execution_time (RestGet sample_get) = None /\
  (exists self,
     @RestSensor.__init__ echo_host tt (RestGet sample_get)
         (PyStr DEFAULT_NAME) PyNone PyNone (responds 0 1 "42.5")
       = (Ok self, [EvRequest sample_get_request]) /\
     RestSensor.state self = PyStr "42.5") /\
  (exists self,
     @RestSensor.__init__ echo_host tt (RestGet sample_get)
         (PyStr DEFAULT_NAME) PyNone PyNone (fails 0 1 ConnectionError)
       = (Ok self, [EvRequest sample_get_request; no_route]) /\
     RestSensor.state self = PyStr "N/A").
Proof.
  split; [reflexivity|]. split; [reflexivity|]. split.
  - destruct (@constructor_publishes_first_fetch echo_host tt
                (RestGet sample_get) (PyStr DEFAULT_NAME) PyNone PyNone
                (responds 0 1 "42.5") eq_refl eq_refl) as (_ & Hbody & _).
    exact (Hbody (mkResponse 200 "42.5") eq_refl eq_refl eq_refl).
  - destruct (@constructor_publishes_first_fetch echo_host tt
                (RestGet sample_get) (PyStr DEFAULT_NAME) PyNone PyNone
                (fails 0 1 ConnectionError) eq_refl eq_refl) as (_ & _ & _ & Herr).
    exact (Herr ConnectionError eq_refl eq_refl).
Defined.

(** * Further properties of the module *)

(** ** What [RestSensor.update] leaves alone *)

Section Frame.
Context `{Host}.

Ltac sensor_record :=
  cbn [RestSensor.rest RestSensor._value_template RestSensor._hass
       RestSensor._state RestSensor._name RestSensor._unit_of_measurement
       RestSensor.state RestSensor.name RestSensor.unit_of_measurement
       RestSensor.set_rest RestSensor.set_state fst snd].

(** The sensor after a call differs from the sensor before in its fetcher,
    which is what the fetcher's own [update] made of it, and in its state;
    the events are those of the fetcher. *)
Lemma RestSensor_update_frame (c : Call) (self : RestSensor.t) :
  RestSensor._hass (snd (fst (RestSensor.update c self))) = RestSensor._hass self /\
  RestSensor._name (snd (fst (RestSensor.update c self))) = RestSensor._name self /\
  RestSensor._unit_of_measurement (snd (fst (RestSensor.update c self)))
    = RestSensor._unit_of_measurement self /\
  RestSensor._value_template (snd (fst (RestSensor.update c self)))
    = RestSensor._value_template self /\
  RestSensor.rest (snd (fst (RestSensor.update c self)))
    = snd (fst (Rest_update c (RestSensor.rest self))) /\
  snd (RestSensor.update c self) = snd (Rest_update c (RestSensor.rest self)) /\
  (forall e,
     fst (fst (RestSensor.update c self)) = Raise e ->
     RestSensor._state (snd (fst (RestSensor.update c self)))
       = RestSensor._state self).
Proof.
  rewrite RestSensor_update_cases.
  destruct self as [hass r nm st unit tpl]. sensor_record.
  destruct (Rest_update c r) as [[[[] | e] r1] evr];
    [| sensor_record; repeat split; auto].
  cbv beta zeta.
  repeat match goal with
         | |- context [match ?x with _ => _ end] => destruct x
         end;
    sensor_record; repeat split; auto; intros e' He'; discriminate He'.
Qed.

(** X1. A call of [RestSensor.update] never changes the sensor's name,
    unit, template or host handle, and a call that raises, whatever the
    exception and wherever it arises, leaves the published state as it
    was. *)
Theorem update_keeps_attributes_and_state_on_raise
    (c : Call) (self : RestSensor.t) :
  RestSensor.name (snd (fst (RestSensor.update c self))) = RestSensor.name self /\
  RestSensor.unit_of_measurement (snd (fst (RestSensor.update c self)))
    = RestSensor.unit_of_measurement self /\
  RestSensor._value_template (snd (fst (RestSensor.update c self)))
    = RestSensor._value_template self /\
  RestSensor._hass (snd (fst (RestSensor.update c self))) = RestSensor._hass self /\
  (forall e,
     fst (fst (RestSensor.update c self)) = Raise e ->
     RestSensor.state (snd (fst (RestSensor.update c self)))
       = RestSensor.state self).
Proof.
  destruct (RestSensor_update_frame c self)
    as (Hh & Hn & Hu & Ht & _ & _ & Hs).
  unfold RestSensor.name, RestSensor.unit_of_measurement, RestSensor.state.
  auto.
Qed.

End Frame.

(** ** Failure before the first body, and recovery *)

Section Recovery.
Context `{Host}.

(** X2. A sensor whose cache is still a dictionary meets a connection
    failure and, at a later poll that passes the gate, a response whose text
    does not contain ['error'], with no template configured. The first call
    publishes ['N/A'] and records the marker; the second call deletes the
    marker, stores the text and publishes it: nothing of the failure is
    left. Neither call raises. *)
Theorem failure_then_recovery
    (c1 c2 : Call) (self : RestSensor.t) (e : Exception) (resp : Response)
    (d : gmap string string) :
  gate_open c1 (RestSensor.rest self) = true ->
  http c1 (Rest_request (RestSensor.rest self)) = Raise e ->
  isinstance_ConnectionError e = true ->
  Rest_data (RestSensor.rest self) = PyDict d ->
  RestSensor._value_template self = PyNone ->
  MIN_TIME_BETWEEN_UPDATES <= t_call c2 - t_done c1 ->
  http c2 (Rest_request (RestSensor.rest self)) = Ok resp ->
  str_contains "error" (text resp) = false ->
  exists self1 self2,
    RestSensor.update c1 self
      = (Ok tt, self1, [EvRequest (Rest_request (RestSensor.rest self)); no_route]) /\
    RestSensor.state self1 = PyStr "N/A" /\
    Rest_data (RestSensor.rest self1) = PyDict (<["error" := "N/A"]> d) /\
    RestSensor.update c2 self1
      = (Ok tt, self2, [EvRequest (Rest_request (RestSensor.rest self))]) /\
    RestSensor.state self2 = PyStr (text resp) /\
    Rest_data (RestSensor.rest self2) = PyStr (text resp).
Proof.
  intros Hg1 Hh1 He Hd Htpl Hgap Hh2 Hb.
  destruct (connection_error_on_dict_publishes_sentinel c1 self e d Hg1 Hh1 He Hd)
    as (self1 & Hu1 & Hs1 & Hd1).
  pose proof (RestSensor_update_frame c1 self) as (_ & _ & _ & Ht1 & Hr1 & _).
  rewrite Hu1 in Ht1, Hr1. cbn [fst snd] in Ht1, Hr1.
  rewrite (Rest_update_connection_error_dict c1 _ e d Hg1 Hh1 He Hd) in Hr1.
  cbn [fst snd] in Hr1.
  assert (Hrq : Rest_request (RestSensor.rest self1)
                = Rest_request (RestSensor.rest self)).
  { rewrite Hr1. destruct (RestSensor.rest self); reflexivity. }
  assert (Hg2 : gate_open c2 (RestSensor.rest self1) = true).
  { unfold gate_open. rewrite Hr1.
    replace (Rest_last_execution_time _) with (Some (t_done c1))
      by (destruct (RestSensor.rest self); reflexivity).
    apply Z.leb_le. exact Hgap. }
  destruct (body_without_error_is_published c2 self1 resp) as (self2 & Hu2 & Hs2 & Hd2);
    auto.
  - rewrite Hrq. exact Hh2.
  - congruence.
  - rewrite Hd1. exact I.
  - exists self1, self2. rewrite Hrq in Hu2. auto 10.
Qed.

(** X3. With a template configured, a fetched text (free of ['error'], over
    a cache that raises no [TypeError]) is handed to the renderer with the
    default ['N/A']. What the renderer yields becomes the state; if the
    renderer raises, the exception leaves [update] and the state is the
    previous one, while the cache already holds the new text. *)
Theorem template_decides_state
    (c : Call) (self : RestSensor.t) (resp : Response) :
  gate_open c (RestSensor.rest self) = true ->
  http c (Rest_request (RestSensor.rest self)) = Ok resp ->
  RestSensor._value_template self <> PyNone ->
  str_contains "error" (text resp) = false ->
  match Rest_data (RestSensor.rest self) with
  | PyDict _ => True
  | PyStr s => str_contains "error" s = false
  | _ => False
  end ->
  exists self',
    Rest_data (RestSensor.rest self') = PyStr (text resp) /\
    match render_with_possible_json_value (RestSensor._hass self)
            (RestSensor._value_template self) (PyStr (text resp)) "N/A" with
    | Ok rendered =>
        RestSensor.update c self
          = (Ok tt, self', [EvRequest (Rest_request (RestSensor.rest self))]) /\
        RestSensor.state self' = PyStr rendered
    | Raise e =>
        RestSensor.update c self
          = (Raise e, self', [EvRequest (Rest_request (RestSensor.rest self))]) /\
        RestSensor.state self' = RestSensor.state self
    end.
Proof.
  intros Hg Hh Ht Hb Hprev.
  destruct self as [hass r nm st unit tpl].
  cbn [RestSensor.rest RestSensor._value_template RestSensor._hass] in *.
  rewrite RestSensor_update_cases, Rest_update_cases.
  cbn [RestSensor.rest RestSensor._value_template RestSensor._hass].
  rewrite Hg, Hh.
  assert (Hdata : Rest_data
            (Rest_set_last_execution_time (t_done c)
               (Rest_set_data (PyStr (text resp)) r))
          = PyStr (text resp)).
  { destruct r; reflexivity. }
  destruct (Rest_data r) as [| b | s | d]; try contradiction;
    cbv beta iota zeta; rewrite ?Hprev; cbv beta iota zeta;
    rewrite Hdata, Hb;
    (destruct tpl as [| tb | ts | td]; [contradiction Ht; reflexivity | | |]);
    destruct (render_with_possible_json_value _ _ _ _) as [rendered | e];
    eexists; (split; [|split; reflexivity]); exact Hdata.
Qed.

End Recovery.

Lemma failure_then_recovery_witness :
  MIN_TIME_BETWEEN_UPDATES
    <= t_call (responds 100 101 "42.5") - t_done (fails 0 1 ConnectionError) /\
  RestSensor.state
    (snd (fst (RestSensor.update (fails 0 1 ConnectionError)
                 (sample_sensor sample_get (PyStr "n/a")))))
  = PyStr "N/A" /\
  RestSensor.state
    (snd (fst (RestSensor.update (responds 100 101 "42.5")
       (snd (fst (RestSensor.update (fails 0 1 ConnectionError)
                    (sample_sensor sample_get (PyStr "n/a"))))))))
  = PyStr "42.5".
Proof.
  assert (Hgap : MIN_TIME_BETWEEN_UPDATES
                 <= t_call (responds 100 101 "42.5")
                    - t_done (fails 0 1 ConnectionError))
    by (cbn; unfold MIN_TIME_BETWEEN_UPDATES; lia).
  split; [exact Hgap|].
  destruct (@failure_then_recovery echo_host
              (fails 0 1 ConnectionError) (responds 100 101 "42.5")
              (sample_sensor sample_get (PyStr "n/a")) ConnectionError
              (mkResponse 200 "42.5") ∅
              eq_refl eq_refl eq_refl eq_refl eq_refl Hgap eq_refl eq_refl)
    as (self1 & self2 & Hu1 & Hs1 & _ & Hu2 & Hs2 & _).
  rewrite Hu1. cbn [fst snd]. rewrite Hu2. cbn [fst snd]. auto.
Defined.

Lemma template_decides_state_witness :
  exists self',
    @RestSensor.update echo_host (responds 0 1 "42.5")
      (@RestSensor.mk echo_host tt (RestGet sample_get) (PyStr DEFAULT_NAME)
         (PyStr "n/a") PyNone (PyStr "{{ value }}"))
    = (Ok tt, self', [EvRequest sample_get_request]) /\
    RestSensor.state self' = PyStr "42.5".
Proof.
  destruct (@template_decides_state echo_host (responds 0 1 "42.5")
              (@RestSensor.mk echo_host tt (RestGet sample_get)
                 (PyStr DEFAULT_NAME) (PyStr "n/a") PyNone (PyStr "{{ value }}"))
              (mkResponse 200 "42.5") eq_refl eq_refl
              ltac:(discriminate) eq_refl I)
    as (self' & _ & Hm).
  exists self'. exact Hm.
Defined.

(** ** What a poll does not look at *)

Section Status.
Context `{Host}.

(** X4. During polling only the text of the response is used: two worlds
    that agree on the clock and answer the fetcher's request with responses
    of the same text, whatever their status codes, lead [RestSensor.update]
    to the same result, the same sensor and the same events. *)
Theorem polling_ignores_status
    (c1 c2 : Call) (self : RestSensor.t) (resp1 resp2 : Response) :
  t_call c1 = t_call c2 ->
  t_done c1 = t_done c2 ->
  http c1 (Rest_request (RestSensor.rest self)) = Ok resp1 ->
  http c2 (Rest_request (RestSensor.rest self)) = Ok resp2 ->
  text resp1 = text resp2 ->
  RestSensor.update c1 self = RestSensor.update c2 self.
Proof.
  intros Hc Hd H1 H2 Ht.
  rewrite !RestSensor_update_cases, !Rest_update_cases.
  unfold gate_open. rewrite Hc, Hd, H1, H2, Ht. reflexivity.
Qed.

End Status.

Lemma polling_ignores_status_witness :
  RestSensor.update (world 0 1 (Ok (mkResponse 500 "Internal Server Error")))
    (sample_sensor sample_get (PyStr "n/a"))
  = RestSensor.update (responds 0 1 "Internal Server Error")
      (sample_sensor sample_get (PyStr "n/a")) /\
  RestSensor.state
    (snd (fst (RestSensor.update
                 (world 0 1 (Ok (mkResponse 500 "Internal Server Error")))
                 (sample_sensor sample_get (PyStr "n/a")))))
  = PyStr "Internal Server Error".
Proof.
  split; [|reflexivity].
  exact (@polling_ignores_status echo_host
           (world 0 1 (Ok (mkResponse 500 "Internal Server Error")))
           (responds 0 1 "Internal Server Error")
           (sample_sensor sample_get (PyStr "n/a"))
           (mkResponse 500 "Internal Server Error")
           (mkResponse 200 "Internal Server Error")
           eq_refl eq_refl eq_refl eq_refl eq_refl).
Defined.

(** ** Shapes kept along a run *)

Lemma Rest_set_data_stamp (v : PyVal) (z : Z) (r : Rest) :
  Rest_data (Rest_set_last_execution_time z (Rest_set_data v r)) = v /\
  Rest_last_execution_time (Rest_set_last_execution_time z (Rest_set_data v r))
    = Some z.
Proof. destruct r; split; reflexivity. Qed.

Lemma Rest_update_on_text (c : Call) (r : Rest) (s : string) :
  Rest_data r = PyStr s ->
  exists s',
    Rest_data (snd (fst (Rest_update c r))) = PyStr s' /\
    (snd (fst (Rest_update c r)) = r \/
     exists resp, http c (Rest_request r) = Ok resp /\ s' = text resp).
Proof.
  intros Hd. rewrite Rest_update_cases, Hd.
  destruct (gate_open c r); [|exists s; auto].
  destruct (http c (Rest_request r)) as [resp | e].
  - cbv zeta. destruct (str_contains "error" s); [exists s; auto|].
    exists (text resp). cbn [fst snd].
    split; [apply Rest_set_data_stamp | right; eauto].
  - destruct (isinstance_ConnectionError e); exists s; auto.
Qed.

(** X5. Once the cache holds a fetched text it holds a text for ever: along
    any run of polls of a fetcher, each call either leaves the fetcher as it
    was or replaces the cached text by the text of the response it received.
    In particular the error marker is never stored again, whatever failures
    the later polls meet. *)
Theorem text_cache_stays_text (calls : list Call) :
  forall (r : Rest) (s : string),
    Rest_data r = PyStr s ->
    Forall (fun st =>
              exists s',
                Rest_data (step_after st) = PyStr s' /\
                (step_after st = step_before st \/
                 exists resp,
                   http (step_call st) (Rest_request (step_before st)) = Ok resp /\
                   s' = text resp))
           (run Rest_update calls r).
Proof.
  induction calls as [| c calls IH]; intros r s Hd; [constructor|].
  rewrite run_cons.
  destruct (Rest_update_on_text c r s Hd) as (s' & Hd' & Hstep).
  constructor.
  - cbn [step_after step_before step_call]. exists s'. auto.
  - eapply IH. exact Hd'.
Qed.

Lemma text_cache_stays_text_witness :
  Rest_data (RestGet (sample_get_holding "42.5" 1)) = PyStr "42.5" /\
  Forall (fun st => exists s', Rest_data (step_after st) = PyStr s')
         (run Rest_update
            [fails 100 101 ConnectionError; responds 200 201 "43";
             fails 300 310 ReadTimeout]
            (RestGet (sample_get_holding "42.5" 1))).
Proof.
  split; [reflexivity|].
  eapply Forall_impl.
  - exact (text_cache_stays_text
             [fails 100 101 ConnectionError; responds 200 201 "43";
              fails 300 310 ReadTimeout]
             (RestGet (sample_get_holding "42.5" 1)) "42.5" eq_refl).
  - intros st (s' & Hs' & _). exists s'. exact Hs'.
Defined.

Lemma Rest_update_keeps_shape (c : Call) (r : Rest) :
  cache_shape r -> cache_shape (snd (fst (Rest_update c r))).
Proof.
  intros Hshape. rewrite Rest_update_cases.
  destruct (gate_open c r); [|exact Hshape].
  assert (Htext : forall v,
            cache_shape (Rest_set_last_execution_time (t_done c)
                           (Rest_set_data (PyStr v) r))).
  { intros v. unfold cache_shape.
    destruct (Rest_set_data_stamp (PyStr v) (t_done c) r) as [-> ->].
    discriminate. }
  unfold cache_shape in Hshape.
  destruct (http c (Rest_request r)) as [resp | e].
  - cbv zeta. destruct (Rest_data r) as [| b | s | d] eqn:Hd;
      try contradiction; cbn [fst snd].
    + destruct (str_contains "error" s); cbn [fst snd]; [|apply Htext].
      unfold cache_shape. rewrite Hd. exact Hshape.
    + apply Htext.
  - destruct (isinstance_ConnectionError e);
      [| unfold cache_shape; exact Hshape].
    destruct (Rest_data r) as [| b | s | d] eqn:Hd;
      try contradiction; cbn [fst snd].
    + unfold cache_shape. rewrite Hd. exact Hshape.
    + unfold cache_shape.
      destruct (Rest_set_data_stamp (PyDict (<["error" := "N/A"]> d))
                  (t_done c) r) as [-> ->].
      right. split; [|discriminate].
      destruct Hshape as [[-> _] | [-> _]].
      * apply insert_empty.
      * apply insert_singleton_eq.
Qed.

Lemma Rest_update_ok_stamped (c : Call) (r : Rest) :
  fst (fst (Rest_update c r)) = Ok tt ->
  Rest_last_execution_time (snd (fst (Rest_update c r))) <> None.
Proof.
  destruct (Rest_update_outcome c r)
    as [[Hg Hu] | [[_ (r' & ev & Hu & Hst & _)] | [_ (e & ev & Hu & _)]]];
    rewrite Hu; cbn [fst snd]; intros Hok.
  - unfold gate_open in Hg.
    destruct (Rest_last_execution_time r); discriminate.
  - rewrite Hst. discriminate.
  - discriminate Hok.
Qed.

Section Shape.
Context `{Host}.

Lemma update_keeps_shape (c : Call) (self : RestSensor.t) :
  sensor_shape self -> sensor_shape (snd (fst (RestSensor.update c self))).
Proof.
  intros [Hcache Htext].
  pose proof (Rest_update_keeps_shape c _ Hcache) as Hcache1.
  pose proof (Rest_update_ok_stamped c (RestSensor.rest self)) as Hstamp.
  rewrite RestSensor_update_cases.
  destruct self as [hass r nm st unit tpl].
  cbn [RestSensor.rest RestSensor._value_template RestSensor._hass
       RestSensor._state] in *.
  destruct (Rest_update c r) as [[[[] | e] r1] evr]; cbn [fst snd] in *;
    [| split; assumption].
  specialize (Hstamp eq_refl).
  cbv beta zeta. unfold cache_shape in Hcache1.
  destruct (Rest_data r1) as [| b | s | d] eqn:Hd; try contradiction.
  - assert (Hc1 : cache_shape r1) by (unfold cache_shape; rewrite Hd; assumption).
    destruct (str_contains "error" s); [split; assumption|].
    destruct tpl as [| tb | ts | td];
      try (destruct (render_with_possible_json_value _ _ _ _));
      split; cbn; try assumption; eexists; reflexivity.
  - destruct Hcache1 as [[_ Hnone] | [-> _]]; [contradiction|].
    rewrite lookup_singleton_eq.
    split; cbn; [| eexists; reflexivity].
    unfold cache_shape. rewrite Hd. right. split; [reflexivity | assumption].
Qed.

(** X6. From the moment the constructor has set the placeholder, along any
    run of calls of [RestSensor.update], whatever the polls meet: the
    published state is always a text; the cached value is the empty
    dictionary (exactly as long as no execution has completed), the
    dictionary that maps ['error'] to ['N/A'], or a text; it is never any
    other dictionary. *)
Theorem sensor_shape_kept (calls : list Call) :
  forall self : RestSensor.t,
    sensor_shape self ->
    Forall (fun st => sensor_shape (step_after st))
           (run RestSensor.update calls self).
Proof.
  induction calls as [| c calls IH]; intros self Hshape; [constructor|].
  rewrite run_cons. constructor.
  - cbn [step_after]. apply update_keeps_shape. exact Hshape.
  - apply IH. apply update_keeps_shape. exact Hshape.
Qed.

End Shape.

Lemma sensor_shape_kept_witness :
  @sensor_shape echo_host (sample_sensor sample_get (PyStr "n/a")) /\
  Forall (fun st => @sensor_shape echo_host (step_after st))
         (run RestSensor.update
            [fails 0 10 ReadTimeout; fails 20 21 ConnectionError;
             responds 100 101 "error: none"; responds 200 201 "42.5"]
            (sample_sensor sample_get (PyStr "n/a"))).
Proof.
  assert (Hinit : @sensor_shape echo_host (sample_sensor sample_get (PyStr "n/a"))).
  { split; [left; split; reflexivity | eexists; reflexivity]. }
  split; [exact Hinit|].
  exact (@sensor_shape_kept echo_host _ _ Hinit).
Defined.

(** ** Platform setup beyond the preflight *)

Section SetupSuccess.
Context `{Host}.

Lemma init_by_update (hass : Hass) (rest0 : Rest) (n u t : PyVal) (c : Call) :
  RestSensor.__init__ hass rest0 n u t c =
  match fst (fst (RestSensor.update c (RestSensor.mk hass rest0 n (PyStr "n/a") u t))) with
  | Ok _ =>
      (Ok (snd (fst (RestSensor.update c
                       (RestSensor.mk hass rest0 n (PyStr "n/a") u t)))),
       snd (RestSensor.update c (RestSensor.mk hass rest0 n (PyStr "n/a") u t)))
  | Raise e =>
      (Raise e,
       snd (RestSensor.update c (RestSensor.mk hass rest0 n (PyStr "n/a") u t)))
  end.
Proof.
  unfold RestSensor.__init__.
  destruct (RestSensor.update c _) as [[[[] | e] self'] ev]; reflexivity.
Qed.

(** After a preflight answered with an ok response, [setup_platform] builds
    the fetcher that issues the preflight's request again, constructs the
    sensor around it, and registers the sensor if the constructor returns. *)
Lemma setup_platform_preflight_ok
    (hass : Hass) (config : gmap string PyVal) (first_poll c : Call)
    (devices : list RestSensor.t) (rq : Request) (resp : Response) :
  preflight_request config = Some rq ->
  http c rq = Ok resp ->
  ok resp = true ->
  exists rest0,
    Rest_request rest0 = rq /\
    Rest_data rest0 = PyDict ∅ /\
    Rest_last_execution_time rest0 = None /\
    setup_platform hass config first_poll c devices =
      match RestSensor.__init__ hass rest0
              (config_get config "name" (PyStr DEFAULT_NAME))
              (config_get config "unit_of_measurement" PyNone)
              (config_get config CONF_VALUE_TEMPLATE PyNone) first_poll with
      | (Ok sensor, ev) => (Ok ReturnNone, devices ++ [sensor], EvRequest rq :: ev)
      | (Raise e, ev) => (Raise e, devices, EvRequest rq :: ev)
      end.
Proof.
  unfold preflight_request, setup_platform. intros Hrq Hh Hok.
  destruct (py_eq_str (config_get config "method" (PyStr DEFAULT_METHOD)) "GET");
    [| destruct (py_eq_str (config_get config "method" (PyStr DEFAULT_METHOD))
                   "POST"); [| discriminate Hrq]];
    injection Hrq as <-.
  - exists (RestGet (RestDataGet.__init__ (config_get config "resource" PyNone)
                       (config_get config "verify_ssl" (PyBool true)))).
    repeat split.
    cbv [try_except find_clause bind ret raise lift gets modify ask emit
         requests_get requests_post _LOGGER_error construct local_var
         add_devices].
    rewrite Hh, Hok; cbn [negb].
    destruct (RestSensor.__init__ _ _ _ _ _ _) as [[sensor | e] ev];
      cbn [fst snd app]; rewrite ?app_nil_r; reflexivity.
  - exists (RestPost (RestDataPost.__init__ (config_get config "resource" PyNone)
                        (config_get config "payload" PyNone)
                        (config_get config "verify_ssl" (PyBool true)))).
    repeat split.
    cbv [try_except find_clause bind ret raise lift gets modify ask emit
         requests_get requests_post _LOGGER_error construct local_var
         add_devices].
    rewrite Hh, Hok; cbn [negb].
    destruct (RestSensor.__init__ _ _ _ _ _ _) as [[sensor | e] ev];
      cbn [fst snd app]; rewrite ?app_nil_r; reflexivity.
Qed.

Lemma init_fresh_facts
    (hass : Hass) (rest0 : Rest) (n u t : PyVal) (c : Call) :
  Rest_data rest0 = PyDict ∅ ->
  Rest_last_execution_time rest0 = None ->
  requests_of (snd (RestSensor.__init__ hass rest0 n u t c))
    = [EvRequest (Rest_request rest0)] /\
  forall sensor,
    fst (RestSensor.__init__ hass rest0 n u t c) = Ok sensor ->
    RestSensor.name sensor = n /\
    RestSensor.unit_of_measurement sensor = u /\
    RestSensor._value_template sensor = t /\
    Rest_request (RestSensor.rest sensor) = Rest_request rest0 /\
    sensor_shape sensor.
Proof.
  intros Hd Hfresh. rewrite init_by_update.
  set (self0 := RestSensor.mk hass rest0 n (PyStr "n/a") u t).
  pose proof (RestSensor_update_frame c self0)
    as (_ & Hn & Hu & Ht & Hr & Hev & _).
  assert (Hshape0 : sensor_shape self0).
  { split; cbn; [| eexists; reflexivity].
    unfold cache_shape. rewrite Hd. left. auto. }
  pose proof (update_keeps_shape c self0 Hshape0) as Hshape.
  assert (Hreq : requests_of (snd (RestSensor.update c self0))
                 = [EvRequest (Rest_request rest0)]).
  { rewrite Hev. cbn [self0 RestSensor.rest].
    rewrite Rest_update_requests, (gate_open_fresh c rest0 Hfresh). reflexivity. }
  destruct (fst (fst (RestSensor.update c self0))) as [[] | e];
    cbn [fst snd]; (split; [exact Hreq|]); intros sensor Hs; [|discriminate Hs].
  injection Hs as <-.
  unfold RestSensor.name, RestSensor.unit_of_measurement.
  rewrite Hn, Hu, Ht, Hr. cbn [self0 RestSensor.rest RestSensor._name
    RestSensor._unit_of_measurement RestSensor._value_template].
  rewrite Rest_update_request_fixed. auto.
Qed.

(** X7. When the preflight request is answered with an ok response,
    [setup_platform] never returns [False]. It issues the same request a
    second time, for the constructor's first poll; then either it appends
    exactly one sensor to the registered entities and falls off its end,
    the sensor carrying the configured name (['REST Sensor'] by default),
    unit and template, polling with the request of the preflight, and
    showing a text as state; or an exception raised during construction
    leaves [setup_platform] and nothing is registered. *)
Theorem setup_after_preflight_ok
    (hass : Hass) (config : gmap string PyVal) (first_poll c : Call)
    (devices : list RestSensor.t) (rq : Request) (resp : Response) :
  preflight_request config = Some rq ->
  http c rq = Ok resp ->
  ok resp = true ->
  (exists sensor ev,
     setup_platform hass config first_poll c devices
       = (Ok ReturnNone, devices ++ [sensor], EvRequest rq :: ev) /\
     requests_of ev = [EvRequest rq] /\
     RestSensor.name sensor = config_get config "name" (PyStr "REST Sensor") /\
     RestSensor.unit_of_measurement sensor
       = config_get config "unit_of_measurement" PyNone /\
     RestSensor._value_template sensor
       = config_get config "value_template" PyNone /\
     Rest_request (RestSensor.rest sensor) = rq /\
     is_text (RestSensor.state sensor)) \/
  (exists e ev,
     setup_platform hass config first_poll c devices
       = (Raise e, devices, EvRequest rq :: ev) /\
     requests_of ev = [EvRequest rq]).
Proof.
  intros Hrq Hh Hok.
  destruct (setup_platform_preflight_ok hass config first_poll c devices rq resp
              Hrq Hh Hok) as (rest0 & Hreq & Hd & Hfresh & ->).
  destruct (init_fresh_facts hass rest0
              (config_get config "name" (PyStr DEFAULT_NAME))
              (config_get config "unit_of_measurement" PyNone)
              (config_get config CONF_VALUE_TEMPLATE PyNone) first_poll Hd Hfresh)
    as [Hev Hsensor].
  rewrite Hreq in *.
  destruct (RestSensor.__init__ _ _ _ _ _ _) as [[sensor | e] ev];
    cbn [fst snd] in *.
  - left. exists sensor, ev.
    destruct (Hsensor sensor eq_refl) as (Hn & Hu & Ht & Hr & _ & Htext).
    repeat split; auto.
  - right. exists e, ev. auto.
Qed.

End SetupSuccess.

Lemma setup_after_preflight_ok_witness :
  exists sensor,
    @setup_platform echo_host tt
        {["resource" := PyStr "http://localhost/api"]}
        (responds 2 3 "42.5") (responds 0 1 "ready") []
      = (Ok ReturnNone, [sensor],
         [EvRequest sample_get_request; EvRequest sample_get_request]) /\
    RestSensor.name sensor = PyStr "REST Sensor" /\
    RestSensor.state sensor = PyStr "42.5".
Proof.
  assert (Hrq : preflight_request {["resource" := PyStr "http://localhost/api"]}
                = Some sample_get_request) by reflexivity.
  destruct (@setup_after_preflight_ok echo_host tt
              {["resource" := PyStr "http://localhost/api"]}
              (responds 2 3 "42.5") (responds 0 1 "ready") []
              sample_get_request (mkResponse 200 "ready")
              Hrq eq_refl eq_refl)
    as [(sensor & ev & Hs & _ & Hn & _) | (e & ev & Hs & _)].
  - exists sensor. vm_compute in Hs. injection Hs as <- <-.
    repeat split.
  - vm_compute in Hs. discriminate Hs.
Defined.

Section SetupEdges.
Context `{Host}.

(** X8. Under the method GET, given or by default, the configured payload
    plays no part: setting or changing the key ['payload'] changes nothing
    of what [setup_platform] does, requests and registered sensor
    included. *)
Theorem setup_get_ignores_payload
    (hass : Hass) (config : gmap string PyVal) (first_poll c : Call)
    (devices : list RestSensor.t) (payload : PyVal) :
  config_get config "method" (PyStr DEFAULT_METHOD) = PyStr "GET" ->
  setup_platform hass (<["payload" := payload]> config) first_poll c devices
    = setup_platform hass config first_poll c devices.
Proof.
  intros Hm.
  assert (Hother : forall key default,
            key <> "payload" ->
            config_get (<["payload" := payload]> config) key default
              = config_get config key default).
  { intros key default Hne. unfold config_get.
    rewrite lookup_insert_ne by congruence. reflexivity. }
  unfold setup_platform.
  rewrite (Hother "resource"), (Hother "method"), (Hother "verify_ssl"),
    (Hother "name"), (Hother "unit_of_measurement"),
    (Hother CONF_VALUE_TEMPLATE) by (cbv [CONF_VALUE_TEMPLATE]; discriminate).
  rewrite Hm.
  change (py_eq_str (PyStr "GET") "GET") with true.
  cbv beta iota zeta. reflexivity.
Qed.

(** X9. An exception of the preflight request that is neither a
    [MissingSchema] nor a [ConnectionError] (a read timeout, say) is not
    handled: it leaves [setup_platform] after the one request, nothing is
    logged, nothing is returned and nothing is registered. *)
Theorem setup_propagates_other_exceptions
    (hass : Hass) (config : gmap string PyVal) (first_poll c : Call)
    (devices : list RestSensor.t) (rq : Request) (e : Exception) :
  preflight_request config = Some rq ->
  http c rq = Raise e ->
  isinstance_MissingSchema e = false ->
  isinstance_ConnectionError e = false ->
  setup_platform hass config first_poll c devices
    = (Raise e, devices, [EvRequest rq]).
Proof.
  unfold preflight_request, setup_platform. intros Hrq Hh Hms Hce.
  destruct (py_eq_str (config_get config "method" (PyStr DEFAULT_METHOD)) "GET");
    [| destruct (py_eq_str (config_get config "method" (PyStr DEFAULT_METHOD))
                   "POST"); [| discriminate Hrq]];
    injection Hrq as <-; unfold_py; rewrite Hh, Hms, Hce; reflexivity.
Qed.

(** X10. The preflight is answered with an ok response, and the first poll,
    made by the constructor, meets a connection error: the setup succeeds
    all the same. One sensor is registered, its state is ['N/A'], and the
    failure of the poll is logged once. *)
Theorem setup_registers_sensor_after_failed_first_poll
    (hass : Hass) (config : gmap string PyVal) (first_poll c : Call)
    (devices : list RestSensor.t) (rq : Request) (resp : Response)
    (e : Exception) :
  preflight_request config = Some rq ->
  http c rq = Ok resp ->
  ok resp = true ->
  http first_poll rq = Raise e ->
  isinstance_ConnectionError e = true ->
  exists sensor,
    setup_platform hass config first_poll c devices
      = (Ok ReturnNone, devices ++ [sensor],
         [EvRequest rq; EvRequest rq; no_route]) /\
    RestSensor.state sensor = PyStr "N/A".
Proof.
  intros Hrq Hh Hok Hh2 He.
  destruct (setup_platform_preflight_ok hass config first_poll c devices rq resp
              Hrq Hh Hok) as (rest0 & Hreq & Hd & Hfresh & ->).
  rewrite init_by_update.
  destruct (connection_error_on_dict_publishes_sentinel first_poll
              (RestSensor.mk hass rest0
                 (config_get config "name" (PyStr DEFAULT_NAME)) (PyStr "n/a")
                 (config_get config "unit_of_measurement" PyNone)
                 (config_get config CONF_VALUE_TEMPLATE PyNone)) e ∅)
    as (sensor & Hu & Hs & _); cbn [RestSensor.rest]; auto.
  - apply gate_open_fresh. exact Hfresh.
  - rewrite Hreq. exact Hh2.
  - cbn [RestSensor.rest] in Hu. rewrite Hu, Hreq. cbn [fst snd].
    exists sensor. auto.
Qed.

(** X11. The preflight is answered with an ok response, and the first poll
    receives a text that contains ['error']: the constructor's [update]
    raises [TypeError] on [value['error']], the exception leaves
    [setup_platform], and no sensor is registered although both requests
    succeeded. *)
Theorem setup_raises_when_first_body_contains_error
    (hass : Hass) (config : gmap string PyVal) (first_poll c : Call)
    (devices : list RestSensor.t) (rq : Request) (resp resp' : Response) :
  preflight_request config = Some rq ->
  http c rq = Ok resp ->
  ok resp = true ->
  http first_poll rq = Ok resp' ->
  str_contains "error" (text resp') = true ->
  setup_platform hass config first_poll c devices
    = (Raise TypeError, devices, [EvRequest rq; EvRequest rq]).
Proof.
  intros Hrq Hh Hok Hh2 Hb.
  destruct (setup_platform_preflight_ok hass config first_poll c devices rq resp
              Hrq Hh Hok) as (rest0 & Hreq & Hd & Hfresh & ->).
  rewrite init_by_update, RestSensor_update_cases.
  cbn [RestSensor.rest RestSensor._value_template RestSensor._hass].
  rewrite <- Hreq in Hh2.
  rewrite (Rest_update_stores_body first_poll rest0 resp' ∅
             (gate_open_fresh _ _ Hfresh) Hh2 Hd).
  cbv beta iota zeta.
  destruct (Rest_set_data_stamp (PyStr (text resp')) (t_done first_poll) rest0)
    as [-> _].
  rewrite Hb, Hreq. reflexivity.
Qed.

End SetupEdges.

Lemma setup_get_ignores_payload_witness :
  @setup_platform echo_host tt
      (<["payload" := PyStr "foo=bar"]>
         {["resource" := PyStr "http://localhost/api"]})
      (responds 2 3 "42.5") (responds 0 1 "ready") []
  = @setup_platform echo_host tt {["resource" := PyStr "http://localhost/api"]}
      (responds 2 3 "42.5") (responds 0 1 "ready") [].
Proof.
  exact (@setup_get_ignores_payload echo_host tt
           {["resource" := PyStr "http://localhost/api"]}
           (responds 2 3 "42.5") (responds 0 1 "ready") []
           (PyStr "foo=bar") eq_refl).
Defined.

Lemma setup_propagates_other_exceptions_witness :
  @setup_platform echo_host tt {["resource" := PyStr "http://localhost/api"]}
      (responds 20 21 "42.5") (fails 0 10 ReadTimeout) []
  = (Raise ReadTimeout, [], [EvRequest sample_get_request]).
Proof.
  exact (@setup_propagates_other_exceptions echo_host tt
           {["resource" := PyStr "http://localhost/api"]}
           (responds 20 21 "42.5") (fails 0 10 ReadTimeout) []
           sample_get_request ReadTimeout eq_refl eq_refl eq_refl eq_refl).
Defined.

Lemma setup_registers_sensor_after_failed_first_poll_witness :
  exists sensor,
    @setup_platform echo_host tt {["resource" := PyStr "http://localhost/api"]}
        (fails 2 3 ConnectionError) (responds 0 1 "ready") []
      = (Ok ReturnNone, [sensor],
         [EvRequest sample_get_request; EvRequest sample_get_request; no_route]) /\
    RestSensor.state sensor = PyStr "N/A".
Proof.
  exact (@setup_registers_sensor_after_failed_first_poll echo_host tt
           {["resource" := PyStr "http://localhost/api"]}
           (fails 2 3 ConnectionError) (responds 0 1 "ready") []
           sample_get_request (mkResponse 200 "ready") ConnectionError
           eq_refl eq_refl eq_refl eq_refl eq_refl).
Defined.

Lemma setup_raises_when_first_body_contains_error_witness :
  @setup_platform echo_host tt {["resource" := PyStr "http://localhost/api"]}
      (responds 2 3 "no error") (responds 0 1 "ready") []
  = (Raise TypeError, [],
     [EvRequest sample_get_request; EvRequest sample_get_request]).
Proof.
  exact (@setup_raises_when_first_body_contains_error echo_host tt
           {["resource" := PyStr "http://localhost/api"]}
           (responds 2 3 "no error") (responds 0 1 "ready") []
           sample_get_request (mkResponse 200 "ready") (mkResponse 200 "no error")
           eq_refl eq_refl eq_refl eq_refl eq_refl).
Defined.
